(** * HighLevelZmqClient: a shallow embedding of the ZMQ command client

    The development follows [src/cpp/HighLevelZmqClient.hpp] and
    [src/cpp/HighLevelZmqClient.cpp].  The client object is a record, its
    methods are computations in a state-and-exception monad over that record,
    the ZMQ socket is an abstract machine (any behaviour of the transport), and
    [nlohmann::json] values are an inductive type whose objects are finite maps
    keyed by strings. *)

From Stdlib Require Import ZArith String Ascii List Bool Lia.
From Stdlib Require Import DecimalString DecimalZ.
From Stdlib Require Import Floats.SpecFloat.
From stdpp Require Import gmap strings.

Open Scope string_scope.
Open Scope Z_scope.

(** ** Numbers of the C++ side *)

(** [float] (binary32) and [double] (binary64) values are IEEE 754 values in
    the format-independent representation of the standard library; the two
    formats differ in precision and exponent range only. *)
Module Float32.
Definition prec : Z := 24.
Definition emax : Z := 128.

(** [static_cast<float>] of an integer: round to nearest, ties to even. *)
Definition of_Z (n : Z) : spec_float := binary_normalize prec emax n 0 false.

(** [static_cast<float>] of a [double]. *)
Definition of_double (d : spec_float) : spec_float :=
  match d with
  | S754_finite s m e => binary_round prec emax s m e
  | _ => d
  end.

(** The literals [0.0f] and [1.0f] of the source, and [0.5f]. *)
Definition zero : spec_float := S754_zero false.
Definition one : spec_float := of_Z 1.
Definition half : spec_float := binary_normalize prec emax 1 (-1) false.
End Float32.

Module Float64.
Definition prec : Z := 53.
Definition emax : Z := 1024.

Definition of_Z (n : Z) : spec_float := binary_normalize prec emax n 0 false.

(** The numbers [0.0], [1.0] and [0.5]. *)
Definition zero : spec_float := S754_zero false.
Definition one : spec_float := of_Z 1.
Definition half : spec_float := binary_normalize prec emax 1 (-1) false.

(** The implicit widening of a [float] stored into a JSON number; it is
    exact, only the normal form of mantissa and exponent changes. *)
Definition of_float (f : spec_float) : spec_float :=
  match f with
  | S754_finite s m e => binary_round prec emax s m e
  | _ => f
  end.

(** The integer part of a finite [double], truncated towards zero. *)
Definition trunc (d : spec_float) : option Z :=
  match d with
  | S754_zero _ => Some 0
  | S754_finite s m e =>
      let a := if 0 <=? e then Z.shiftl (Zpos m) e else Z.shiftr (Zpos m) (- e) in
      Some (if s then - a else a)
  | _ => None
  end.
End Float64.

(** Two's complement wrap-around of [int] and the conversion to [uint32_t]. *)
Definition wrap_int32 (z : Z) : Z := (z + 2 ^ 31) mod 2 ^ 32 - 2 ^ 31.
Definition to_uint32 (z : Z) : Z := z mod 2 ^ 32.

(** [static_cast<int>] of a [double].  The C++ standard leaves the conversion
    undefined when the truncated value does not fit (or for NaN and the
    infinities); the value fixed here is the one x86-64 produces. *)
Definition int_of_double (d : spec_float) : Z :=
  match Float64.trunc d with
  | Some z => if (- 2 ^ 31 <=? z) && (z <? 2 ^ 31) then z else - 2 ^ 31
  | None => - 2 ^ 31
  end.

(** [std::to_string] of a signed integer: decimal digits, a leading minus
    sign for negative numbers. *)
Definition to_string (n : Z) : string := NilZero.string_of_int (Z.to_int n).

(** ** Exceptions and results *)

(** The exceptions the program can meet.  [zmq::error_t] and the classes of
    [nlohmann::json::exception] (with their numeric ids) all derive from
    [std::exception]. *)
Inductive exn : Type :=
| zmq_error_t (errnum : Z)
| json_parse_error (id : Z)
| json_type_error (id : Z).

(** [catch (const std::exception &)] *)
Definition is_std_exception (e : exn) : bool :=
  match e with
  | zmq_error_t _ | json_parse_error _ | json_type_error _ => true
  end.

(** [catch (const zmq::error_t &)] *)
Definition is_zmq_error_t (e : exn) : bool :=
  match e with
  | zmq_error_t _ => true
  | json_parse_error _ | json_type_error _ => false
  end.

Inductive result (A : Type) : Type :=
| Ok (a : A)
| Throw (e : exn).
Arguments Ok {A} a.
Arguments Throw {A} e.

Definition result_bind {A B} (r : result A) (f : A -> result B) : result B :=
  match r with
  | Ok a => f a
  | Throw e => Throw e
  end.

Fixpoint result_mapM {A B} (f : A -> result B) (l : list A) : result (list B) :=
  match l with
  | [] => Ok []
  | x :: l' =>
      result_bind (f x) (fun y =>
      result_bind (result_mapM f l') (fun ys => Ok (y :: ys)))
  end.

(** ** JSON values ([nlohmann::json]) *)

(** Objects are [std::map<std::string, json>]: one value per key, no order of
    insertion.  The three number constructors are the library's
    [number_integer], [number_unsigned] and [number_float]. *)
Unset Elimination Schemes.
Inductive json : Type :=
| JNull
| JBool (b : bool)
| JInt (n : Z)
| JUInt (n : Z)
| JFloat (d : spec_float)
| JString (s : string)
| JArray (l : list json)
| JObject (o : gmap string json).
Set Elimination Schemes.

Module Json.
(** [j.contains(key)]: false on anything that is not an object. *)
Definition contains (key : string) (j : json) : bool :=
  match j with
  | JObject o => match o !! key with Some _ => true | None => false end
  | _ => false
  end.

(** [j[key]] read through the non-const [operator[]]: a null value behaves
    as an empty object and a missing key yields null; any other type
    raises [type_error] 305. *)
Definition index (key : string) (j : json) : result json :=
  match j with
  | JNull => Ok JNull
  | JObject o => Ok (default JNull (o !! key))
  | _ => Throw (json_type_error 305)
  end.

(** [j[key] = v] *)
Definition assign (key : string) (v : json) (j : json) : result json :=
  match j with
  | JNull => Ok (JObject {[ key := v ]})
  | JObject o => Ok (JObject (<[ key := v ]> o))
  | _ => Throw (json_type_error 305)
  end.

(** [j[k1][k2] = v] *)
Definition assign2 (k1 k2 : string) (v : json) (j : json) : result json :=
  result_bind (index k1 j) (fun inner =>
  result_bind (assign k2 v inner) (fun inner' =>
  assign k1 inner' j)).

(** [get<bool>()], [get<std::string>()]: the stored type must match. *)
Definition get_bool (j : json) : result bool :=
  match j with
  | JBool b => Ok b
  | _ => Throw (json_type_error 302)
  end.

Definition get_string (j : json) : result string :=
  match j with
  | JString s => Ok s
  | _ => Throw (json_type_error 302)
  end.

(** [get<int>()], [get<float>()]: the library converts any of the three
    number types and booleans by [static_cast]. *)
Definition get_int (j : json) : result Z :=
  match j with
  | JBool b => Ok (if b then 1 else 0)
  | JInt n => Ok (wrap_int32 n)
  | JUInt n => Ok (wrap_int32 n)
  | JFloat d => Ok (int_of_double d)
  | _ => Throw (json_type_error 302)
  end.

Definition get_float (j : json) : result spec_float :=
  match j with
  | JBool b => Ok (if b then Float32.one else Float32.zero)
  | JInt n => Ok (Float32.of_Z n)
  | JUInt n => Ok (Float32.of_Z n)
  | JFloat d => Ok (Float32.of_double d)
  | _ => Throw (json_type_error 302)
  end.

(** [get<std::vector<float>>()]: the value must be an array, and every
    element is converted in order. *)
Definition get_vector_float (j : json) : result (list spec_float) :=
  match j with
  | JArray l => result_mapM get_float l
  | _ => Throw (json_type_error 302)
  end.

(** [j.value(key, default_value)], with [get] the conversion to the type of
    the default: only objects are accepted ([type_error] 306 otherwise); a
    present key is converted, an absent one yields the default. *)
Definition value {T} (get : json -> result T) (key : string) (default_value : T)
    (j : json) : result T :=
  match j with
  | JObject o =>
      match o !! key with
      | Some v => get v
      | None => Ok default_value
      end
  | _ => Throw (json_type_error 306)
  end.

(** A JSON number holding a C++ [float]. *)
Definition of_float (f : spec_float) : json := JFloat (Float64.of_float f).
End Json.

(** ** The client *)

Inductive ClientType : Type :=
| REMOTE_CONTROLLER
| NAVIGATION.

Definition ClientType_eqb (a b : ClientType) : bool :=
  match a, b with
  | REMOTE_CONTROLLER, REMOTE_CONTROLLER => true
  | NAVIGATION, NAVIGATION => true
  | _, _ => false
  end.

(** What the client does to its socket, in order. *)
Inductive io_event : Type :=
| io_setsockopt_identity (identity : string)
| io_connect (endpoint : string)
| io_send (msg : string)
| io_recv.

(** A line handed to the logger: its level and the evaluated arguments of the
    format string. *)
Inductive log_arg : Type :=
| ArgStr (s : string)
| ArgWhat (e : exn).

Inductive log_entry : Type :=
| LOGE_entry (args : list log_arg)
| LOGI_entry (args : list log_arg).

(** The outcome of a call into libzmq through cppzmq: a value, or a thrown
    [zmq::error_t]. *)
Inductive zmq_result (A : Type) : Type :=
| ZOk (a : A)
| ZErr (errnum : Z).
Arguments ZOk {A} a.
Arguments ZErr {A} errnum.

(** The libraries the client is linked against.  The socket together with its
    peer is an arbitrary machine: every call returns an outcome and a next
    state.  [zmq_send] returns the boolean of [socket_t::send]; [zmq_recv]
    returns the received frame, or [None] when [socket_t::recv] returns false.
    [json_dump] is the serializer ([None]: [type_error] 316, a string that is
    not UTF-8) and [json_parse] the parser ([None]: a [parse_error], the text is
    not JSON). *)
Class Env : Type := {
  socket_t : Type;
  zmq_setsockopt_identity : string -> socket_t -> zmq_result unit * socket_t;
  zmq_connect : string -> socket_t -> zmq_result unit * socket_t;
  zmq_send : string -> socket_t -> zmq_result bool * socket_t;
  zmq_recv : socket_t -> zmq_result (option string) * socket_t;
  json_dump : json -> option string;
  json_parse : string -> option json
}.

Section Client.

Context `{E : Env}.

(** The data members of the class; [trace_] and [log_] record the calls made
    on the socket and the logger. *)
Record HighLevelZmqClient : Type := mkClient {
  socket_ : socket_t;
  tcp_endpoint_ : string;
  connected_ : bool;
  client_type_ : ClientType;
  trace_ : list io_event;
  log_ : list log_entry
}.

(** A method: it runs on the object, returns or throws, and leaves the
    object in a new state either way. *)
Definition M (A : Type) : Type :=
  HighLevelZmqClient -> result A * HighLevelZmqClient.

Definition ret {A} (a : A) : M A := fun c => (Ok a, c).

Definition bind {A B} (m : M A) (f : A -> M B) : M B :=
  fun c =>
    match m c with
    | (Ok a, c') => f a c'
    | (Throw e, c') => (Throw e, c')
    end.

Definition lift {A} (r : result A) : M A := fun c => (r, c).

(** [try { body } catch (const E &e) { handler }] where [catches] tells
    which exceptions are of class [E]. *)
Definition try_catch {A} (body : M A) (catches : exn -> bool)
    (handler : exn -> M A) : M A :=
  fun c =>
    match body c with
    | (Throw e, c') => if catches e then handler e c' else (Throw e, c')
    | (Ok a, c') => (Ok a, c')
    end.

Definition this : M HighLevelZmqClient := fun c => (Ok c, c).

Definition set_connected (b : bool) : M unit :=
  fun c => (Ok tt, mkClient (socket_ c) (tcp_endpoint_ c) b (client_type_ c)
                            (trace_ c) (log_ c)).

(** Modelled from the spec: the macros [LOGE] and [LOGI] of
    [utilities/Logger.hpp], which is not among the sources.  The spec has the
    rejections and failures logged; a call evaluates its arguments and adds
    one line to the log. *)
Definition LOG (entry : log_entry) : M unit :=
  fun c => (Ok tt, mkClient (socket_ c) (tcp_endpoint_ c) (connected_ c)
                            (client_type_ c) (trace_ c) (log_ c ++ [entry])).

Definition LOGE (args : list log_arg) : M unit := LOG (LOGE_entry args).
Definition LOGI (args : list log_arg) : M unit := LOG (LOGI_entry args).

(** A call on [socket_]: the event is recorded, the socket moves to its
    next state, an error is thrown as [zmq::error_t]. *)
Definition socket_call {A} (ev : io_event)
    (call : socket_t -> zmq_result A * socket_t) : M A :=
  fun c =>
    let '(r, s') := call (socket_ c) in
    let c' := mkClient s' (tcp_endpoint_ c) (connected_ c) (client_type_ c)
                       (trace_ c ++ [ev]) (log_ c) in
    match r with
    | ZOk a => (Ok a, c')
    | ZErr n => (Throw (zmq_error_t n), c')
    end.

Notation "'let*' x ':=' c 'in' k" := (bind c (fun x => k))
  (at level 10, x name, c at level 100, k at level 200).
Notation "c1 ';;;' c2" := (bind c1 (fun _ => c2))
  (at level 100, c2 at level 200, right associativity).

(** [request.dump()] and [json::parse(reply_str)] with their exceptions. *)
Definition dump (j : json) : result string :=
  match json_dump j with
  | Some s => Ok s
  | None => Throw (json_type_error 316)
  end.

Definition parse (s : string) : result json :=
  match json_parse s with
  | Some j => Ok j
  | None => Throw (json_parse_error 101)
  end.

(** *** Construction *)

Definition DEFAULT_TCP_ENDPOINT : string := "tcp://127.0.0.1:33445".

Definition client_type_str (client_type : ClientType) : string :=
  match client_type with
  | REMOTE_CONTROLLER => "rc"
  | NAVIGATION => "nav"
  end.

(** The identity string of the constructor; [now] is the reading of
    [std::chrono::steady_clock], a count of ticks. *)
Definition identity (client_type : ClientType) (now : Z) : string :=
  client_type_str client_type +:+ "_" +:+ to_string now.

(** The constructor, on a freshly created DEALER socket [s0]. *)
Definition construct (client_type : ClientType) (tcp_endpoint : string)
    (now : Z) (s0 : socket_t) : result HighLevelZmqClient :=
  let id := identity client_type now in
  match zmq_setsockopt_identity id s0 with
  | (ZOk _, s1) =>
      Ok (mkClient s1 tcp_endpoint false client_type
                   [io_setsockopt_identity id] [])
  | (ZErr n, _) => Throw (zmq_error_t n)
  end.

(** *** Connection management *)

Definition isConnected (c : HighLevelZmqClient) : bool := connected_ c.
Definition getClientType (c : HighLevelZmqClient) : ClientType := client_type_ c.

Definition disconnect : M unit :=
  let* self := this in
  if connected_ self then
    set_connected false ;;;
    LOGI []
  else ret tt.

(** The destructor. *)
Definition destructor : M unit := disconnect.

Definition sendRequest (request : json) : M json :=
  let* self := this in
  if negb (connected_ self) then
    let* error_response := lift (Json.assign "success" (JBool false) JNull) in
    let* error_response :=
      lift (Json.assign "message" (JString "Not connected to service")
                        error_response) in
    ret error_response
  else
    let* returned :=
      try_catch
        (let* request_str := lift (dump request) in
         let* _ := socket_call (io_send request_str) (zmq_send request_str) in
         let* reply_msg := socket_call io_recv zmq_recv in
         match reply_msg with
         | Some reply_str =>
             let* reply := lift (parse reply_str) in
             ret (Some reply)
         | None => ret None
         end)
        is_std_exception
        (fun e => LOGE [ArgWhat e] ;;; ret None) in
    match returned with
    | Some reply => ret reply
    | None =>
        let* error_response := lift (Json.assign "success" (JBool false) JNull) in
        let* error_response :=
          lift (Json.assign "message" (JString "Request failed")
                            error_response) in
        ret error_response
    end.

Definition client_type_name (client_type : ClientType) : string :=
  match client_type with
  | REMOTE_CONTROLLER => "remote_controller"
  | NAVIGATION => "navigation"
  end.

(** The registration envelope built inside [connect]. *)
Definition register_request (client_type : ClientType) : result json :=
  result_bind (Json.assign "command" (JString "register") JNull) (fun request =>
  Json.assign2 "params" "client_type"
               (JString (client_type_name client_type)) request).

Definition connect : M bool :=
  let* self := this in
  if connected_ self then ret true
  else
    try_catch
      (socket_call (io_connect (tcp_endpoint_ self))
                   (zmq_connect (tcp_endpoint_ self)) ;;;
       set_connected true ;;;
       let* register_request := lift (register_request (client_type_ self)) in
       let* response := sendRequest register_request in
       let* success := lift (Json.value Json.get_bool "success" false response) in
       if negb success then
         let* message :=
           lift (Json.value Json.get_string "message" "unknown error" response) in
         LOGE [ArgStr message] ;;;
         disconnect ;;;
         ret false
       else
         LOGI [ArgStr (tcp_endpoint_ self)] ;;;
         ret true)
      is_zmq_error_t
      (fun e =>
         LOGE [ArgWhat e] ;;;
         set_connected false ;;;
         ret false).

(** *** Heartbeat and mode *)

Definition sendHeartbeat : M bool :=
  let* request := lift (Json.assign "command" (JString "heartbeat") JNull) in
  let* response := sendRequest request in
  lift (Json.value Json.get_bool "success" false response).

Definition setMode_request (mode : string) : result json :=
  result_bind (Json.assign "command" (JString "setMode") JNull) (fun request =>
  Json.assign2 "params" "mode" (JString mode) request).

Definition setMode (mode : string) : M bool :=
  let* self := this in
  if negb (ClientType_eqb (client_type_ self) REMOTE_CONTROLLER) then
    LOGE [] ;;;
    ret false
  else
    let* request := lift (setMode_request mode) in
    let* response := sendRequest request in
    lift (Json.value Json.get_bool "success" false response).

Definition getCurrentMode : M string :=
  let* request := lift (Json.assign "command" (JString "getCurrentMode") JNull) in
  let* response := sendRequest request in
  lift (Json.value Json.get_string "mode" "auto" response).

(** *** Basic control *)

Definition initRobot_request (local_ip : string) (local_port : Z)
    (dog_ip : string) : result json :=
  result_bind (Json.assign "command" (JString "initRobot") JNull) (fun request =>
  result_bind (Json.assign2 "params" "local_ip" (JString local_ip) request) (fun request =>
  result_bind (Json.assign2 "params" "local_port" (JInt local_port) request) (fun request =>
  Json.assign2 "params" "dog_ip" (JString dog_ip) request))).

Definition initRobot (local_ip : string) (local_port : Z) (dog_ip : string) : M bool :=
  let* request := lift (initRobot_request local_ip local_port dog_ip) in
  let* response := sendRequest request in
  lift (Json.value Json.get_bool "success" false response).

Definition deinitRobot : M bool :=
  let* request := lift (Json.assign "command" (JString "deinitRobot") JNull) in
  let* response := sendRequest request in
  lift (Json.value Json.get_bool "success" false response).

Definition checkConnect : M bool :=
  let* request := lift (Json.assign "command" (JString "checkConnect") JNull) in
  let* response := sendRequest request in
  lift (Json.value Json.get_bool "connected" false response).

(** The methods below return [uint32_t]: [value("result", 0)] reads an
    [int], which the return statement converts. *)
Definition standUp : M Z :=
  let* request := lift (Json.assign "command" (JString "standUp") JNull) in
  let* response := sendRequest request in
  let* r := lift (Json.value Json.get_int "result" 0 response) in
  ret (to_uint32 r).

Definition lieDown : M Z :=
  let* request := lift (Json.assign "command" (JString "lieDown") JNull) in
  let* response := sendRequest request in
  let* r := lift (Json.value Json.get_int "result" 0 response) in
  ret (to_uint32 r).

Definition passive : M Z :=
  let* request := lift (Json.assign "command" (JString "passive") JNull) in
  let* response := sendRequest request in
  let* r := lift (Json.value Json.get_int "result" 0 response) in
  ret (to_uint32 r).

(** The envelope built by the first four statements of [move]. *)
Definition move_request (vx vy yaw_rate : spec_float) : result json :=
  result_bind (Json.assign "command" (JString "move") JNull) (fun request =>
  result_bind (Json.assign2 "params" "vx" (Json.of_float vx) request) (fun request =>
  result_bind (Json.assign2 "params" "vy" (Json.of_float vy) request) (fun request =>
  Json.assign2 "params" "yaw_rate" (Json.of_float yaw_rate) request))).

Definition move (vx vy yaw_rate : spec_float) : M Z :=
  let* request := lift (move_request vx vy yaw_rate) in
  let* response := sendRequest request in
  let* r := lift (Json.value Json.get_int "result" 0 response) in
  ret (to_uint32 r).

Definition jump : M Z :=
  let* request := lift (Json.assign "command" (JString "jump") JNull) in
  let* response := sendRequest request in
  let* r := lift (Json.value Json.get_int "result" 0 response) in
  ret (to_uint32 r).

Definition frontJump : M Z :=
  let* request := lift (Json.assign "command" (JString "frontJump") JNull) in
  let* response := sendRequest request in
  let* r := lift (Json.value Json.get_int "result" 0 response) in
  ret (to_uint32 r).

Definition backflip : M Z :=
  let* request := lift (Json.assign "command" (JString "backflip") JNull) in
  let* response := sendRequest request in
  let* r := lift (Json.value Json.get_int "result" 0 response) in
  ret (to_uint32 r).

Definition attitudeControl_request (roll_vel pitch_vel yaw_vel height_vel : spec_float)
    : result json :=
  result_bind (Json.assign "command" (JString "attitudeControl") JNull) (fun request =>
  result_bind (Json.assign2 "params" "roll_vel" (Json.of_float roll_vel) request) (fun request =>
  result_bind (Json.assign2 "params" "pitch_vel" (Json.of_float pitch_vel) request) (fun request =>
  result_bind (Json.assign2 "params" "yaw_vel" (Json.of_float yaw_vel) request) (fun request =>
  Json.assign2 "params" "height_vel" (Json.of_float height_vel) request)))).

Definition attitudeControl (roll_vel pitch_vel yaw_vel height_vel : spec_float) : M Z :=
  let* request := lift (attitudeControl_request roll_vel pitch_vel yaw_vel height_vel) in
  let* response := sendRequest request in
  let* r := lift (Json.value Json.get_int "result" 0 response) in
  ret (to_uint32 r).

Definition shakeHand : M Z :=
  let* request := lift (Json.assign "command" (JString "shakeHand") JNull) in
  let* response := sendRequest request in
  let* r := lift (Json.value Json.get_int "result" 0 response) in
  ret (to_uint32 r).

Definition twoLegStand_request (vx yaw_rate : spec_float) : result json :=
  result_bind (Json.assign "command" (JString "twoLegStand") JNull) (fun request =>
  result_bind (Json.assign2 "params" "vx" (Json.of_float vx) request) (fun request =>
  Json.assign2 "params" "yaw_rate" (Json.of_float yaw_rate) request)).

Definition twoLegStand (vx yaw_rate : spec_float) : M Z :=
  let* request := lift (twoLegStand_request vx yaw_rate) in
  let* response := sendRequest request in
  let* r := lift (Json.value Json.get_int "result" 0 response) in
  ret (to_uint32 r).

Definition cancelTwoLegStand : M unit :=
  let* request := lift (Json.assign "command" (JString "cancelTwoLegStand") JNull) in
  let* _ := sendRequest request in
  ret tt.

(** *** Status *)

Definition getCurrentCtrlmode : M Z :=
  let* request := lift (Json.assign "command" (JString "getCurrentCtrlmode") JNull) in
  let* response := sendRequest request in
  let* r := lift (Json.value Json.get_int "value" 0 response) in
  ret (to_uint32 r).

Definition getBatteryPower : M Z :=
  let* request := lift (Json.assign "command" (JString "getBatteryPower") JNull) in
  let* response := sendRequest request in
  let* r := lift (Json.value Json.get_int "value" 0 response) in
  ret (to_uint32 r).

(** *** Sensor queries returning a whole vector *)

Definition getQuaternion : M (list spec_float) :=
  let* request := lift (Json.assign "command" (JString "getQuaternion") JNull) in
  let* response := sendRequest request in
  if Json.contains "values" response then
    let* values := lift (Json.index "values" response) in
    lift (Json.get_vector_float values)
  else ret [Float32.zero; Float32.zero; Float32.zero; Float32.one].

Definition getRPY : M (list spec_float) :=
  let* request := lift (Json.assign "command" (JString "getRPY") JNull) in
  let* response := sendRequest request in
  if Json.contains "values" response then
    let* values := lift (Json.index "values" response) in
    lift (Json.get_vector_float values)
  else ret [Float32.zero; Float32.zero; Float32.zero].

Definition getBodyAcc : M (list spec_float) :=
  let* request := lift (Json.assign "command" (JString "getBodyAcc") JNull) in
  let* response := sendRequest request in
  if Json.contains "values" response then
    let* values := lift (Json.index "values" response) in
    lift (Json.get_vector_float values)
  else ret [Float32.zero; Float32.zero; Float32.zero].

Definition getBodyGyro : M (list spec_float) :=
  let* request := lift (Json.assign "command" (JString "getBodyGyro") JNull) in
  let* response := sendRequest request in
  if Json.contains "values" response then
    let* values := lift (Json.index "values" response) in
    lift (Json.get_vector_float values)
  else ret [Float32.zero; Float32.zero; Float32.zero].

Definition getPosition : M (list spec_float) :=
  let* request := lift (Json.assign "command" (JString "getPosition") JNull) in
  let* response := sendRequest request in
  if Json.contains "values" response then
    let* values := lift (Json.index "values" response) in
    lift (Json.get_vector_float values)
  else ret [Float32.zero; Float32.zero; Float32.zero].

Definition getWorldVelocity : M (list spec_float) :=
  let* request := lift (Json.assign "command" (JString "getWorldVelocity") JNull) in
  let* response := sendRequest request in
  if Json.contains "values" response then
    let* values := lift (Json.index "values" response) in
    lift (Json.get_vector_float values)
  else ret [Float32.zero; Float32.zero; Float32.zero].

Definition getBodyVelocity : M (list spec_float) :=
  let* request := lift (Json.assign "command" (JString "getBodyVelocity") JNull) in
  let* response := sendRequest request in
  if Json.contains "values" response then
    let* values := lift (Json.index "values" response) in
    lift (Json.get_vector_float values)
  else ret [Float32.zero; Float32.zero; Float32.zero].

(** *** Joint queries, one entry per leg *)

Definition getLegAbadJoint : M (list spec_float) :=
  let* request := lift (Json.assign "command" (JString "getLegAbadJoint") JNull) in
  let* response := sendRequest request in
  if Json.contains "values" response then
    let* values := lift (Json.index "values" response) in
    lift (Json.get_vector_float values)
  else ret [Float32.zero; Float32.zero; Float32.zero; Float32.zero].

Definition getLegHipJoint : M (list spec_float) :=
  let* request := lift (Json.assign "command" (JString "getLegHipJoint") JNull) in
  let* response := sendRequest request in
  if Json.contains "values" response then
    let* values := lift (Json.index "values" response) in
    lift (Json.get_vector_float values)
  else ret [Float32.zero; Float32.zero; Float32.zero; Float32.zero].

Definition getLegKneeJoint : M (list spec_float) :=
  let* request := lift (Json.assign "command" (JString "getLegKneeJoint") JNull) in
  let* response := sendRequest request in
  if Json.contains "values" response then
    let* values := lift (Json.index "values" response) in
    lift (Json.get_vector_float values)
  else ret [Float32.zero; Float32.zero; Float32.zero; Float32.zero].

Definition getLegAbadJointVel : M (list spec_float) :=
  let* request := lift (Json.assign "command" (JString "getLegAbadJointVel") JNull) in
  let* response := sendRequest request in
  if Json.contains "values" response then
    let* values := lift (Json.index "values" response) in
    lift (Json.get_vector_float values)
  else ret [Float32.zero; Float32.zero; Float32.zero; Float32.zero].

Definition getLegHipJointVel : M (list spec_float) :=
  let* request := lift (Json.assign "command" (JString "getLegHipJointVel") JNull) in
  let* response := sendRequest request in
  if Json.contains "values" response then
    let* values := lift (Json.index "values" response) in
    lift (Json.get_vector_float values)
  else ret [Float32.zero; Float32.zero; Float32.zero; Float32.zero].

Definition getLegKneeJointVel : M (list spec_float) :=
  let* request := lift (Json.assign "command" (JString "getLegKneeJointVel") JNull) in
  let* response := sendRequest request in
  if Json.contains "values" response then
    let* values := lift (Json.index "values" response) in
    lift (Json.get_vector_float values)
  else ret [Float32.zero; Float32.zero; Float32.zero; Float32.zero].

Definition getLegAbadJointTorque : M (list spec_float) :=
  let* request := lift (Json.assign "command" (JString "getLegAbadJointTorque") JNull) in
  let* response := sendRequest request in
  if Json.contains "values" response then
    let* values := lift (Json.index "values" response) in
    lift (Json.get_vector_float values)
  else ret [Float32.zero; Float32.zero; Float32.zero; Float32.zero].

Definition getLegHipJointTorque : M (list spec_float) :=
  let* request := lift (Json.assign "command" (JString "getLegHipJointTorque") JNull) in
  let* response := sendRequest request in
  if Json.contains "values" response then
    let* values := lift (Json.index "values" response) in
    lift (Json.get_vector_float values)
  else ret [Float32.zero; Float32.zero; Float32.zero; Float32.zero].

Definition getLegKneeJointTorque : M (list spec_float) :=
  let* request := lift (Json.assign "command" (JString "getLegKneeJointTorque") JNull) in
  let* response := sendRequest request in
  if Json.contains "values" response then
    let* values := lift (Json.index "values" response) in
    lift (Json.get_vector_float values)
  else ret [Float32.zero; Float32.zero; Float32.zero; Float32.zero].

(** The sixteen operations that return a vector, as one family. *)
Inductive vector_query : Type :=
| QGetQuaternion
| QGetRPY
| QGetBodyAcc
| QGetBodyGyro
| QGetPosition
| QGetWorldVelocity
| QGetBodyVelocity
| QGetLegAbadJoint
| QGetLegHipJoint
| QGetLegKneeJoint
| QGetLegAbadJointVel
| QGetLegHipJointVel
| QGetLegKneeJointVel
| QGetLegAbadJointTorque
| QGetLegHipJointTorque
| QGetLegKneeJointTorque.

Definition run_vector_query (q : vector_query) : M (list spec_float) :=
  match q with
  | QGetQuaternion => getQuaternion
  | QGetRPY => getRPY
  | QGetBodyAcc => getBodyAcc
  | QGetBodyGyro => getBodyGyro
  | QGetPosition => getPosition
  | QGetWorldVelocity => getWorldVelocity
  | QGetBodyVelocity => getBodyVelocity
  | QGetLegAbadJoint => getLegAbadJoint
  | QGetLegHipJoint => getLegHipJoint
  | QGetLegKneeJoint => getLegKneeJoint
  | QGetLegAbadJointVel => getLegAbadJointVel
  | QGetLegHipJointVel => getLegHipJointVel
  | QGetLegKneeJointVel => getLegKneeJointVel
  | QGetLegAbadJointTorque => getLegAbadJointTorque
  | QGetLegHipJointTorque => getLegHipJointTorque
  | QGetLegKneeJointTorque => getLegKneeJointTorque
  end.

Definition vector_query_command (q : vector_query) : string :=
  match q with
  | QGetQuaternion => "getQuaternion"
  | QGetRPY => "getRPY"
  | QGetBodyAcc => "getBodyAcc"
  | QGetBodyGyro => "getBodyGyro"
  | QGetPosition => "getPosition"
  | QGetWorldVelocity => "getWorldVelocity"
  | QGetBodyVelocity => "getBodyVelocity"
  | QGetLegAbadJoint => "getLegAbadJoint"
  | QGetLegHipJoint => "getLegHipJoint"
  | QGetLegKneeJoint => "getLegKneeJoint"
  | QGetLegAbadJointVel => "getLegAbadJointVel"
  | QGetLegHipJointVel => "getLegHipJointVel"
  | QGetLegKneeJointVel => "getLegKneeJointVel"
  | QGetLegAbadJointTorque => "getLegAbadJointTorque"
  | QGetLegHipJointTorque => "getLegHipJointTorque"
  | QGetLegKneeJointTorque => "getLegKneeJointTorque"
  end.

(** The length the specification documents for each quantity: 4 for the
    quaternion, 3 for the triples, 4 for the per-leg arrays. *)
Definition documented_length (q : vector_query) : nat :=
  match q with
  | QGetQuaternion => 4
  | QGetRPY | QGetBodyAcc | QGetBodyGyro
  | QGetPosition | QGetWorldVelocity | QGetBodyVelocity => 3
  | _ => 4
  end%nat.

(** The envelope each of them builds. *)
Definition vector_query_request (q : vector_query) : result json :=
  Json.assign "command" (JString (vector_query_command q)) JNull.

(** The default each of them returns when the response has no [values]. *)
Definition vector_query_default (q : vector_query) : list spec_float :=
  match q with
  | QGetQuaternion => [Float32.zero; Float32.zero; Float32.zero; Float32.one]
  | QGetRPY | QGetBodyAcc | QGetBodyGyro
  | QGetPosition | QGetWorldVelocity | QGetBodyVelocity =>
      [Float32.zero; Float32.zero; Float32.zero]
  | _ => [Float32.zero; Float32.zero; Float32.zero; Float32.zero]
  end.

(** The ten operations that return the numeric [result] code. *)
Inductive result_code_op : Type :=
| OpStandUp
| OpLieDown
| OpPassive
| OpMove (vx vy yaw_rate : spec_float)
| OpJump
| OpFrontJump
| OpBackflip
| OpAttitudeControl (roll_vel pitch_vel yaw_vel height_vel : spec_float)
| OpShakeHand
| OpTwoLegStand (vx yaw_rate : spec_float).

Definition run_result_code_op (op : result_code_op) : M Z :=
  match op with
  | OpStandUp => standUp
  | OpLieDown => lieDown
  | OpPassive => passive
  | OpMove vx vy yaw_rate => move vx vy yaw_rate
  | OpJump => jump
  | OpFrontJump => frontJump
  | OpBackflip => backflip
  | OpAttitudeControl roll_vel pitch_vel yaw_vel height_vel =>
      attitudeControl roll_vel pitch_vel yaw_vel height_vel
  | OpShakeHand => shakeHand
  | OpTwoLegStand vx yaw_rate => twoLegStand vx yaw_rate
  end.

Definition result_code_request (op : result_code_op) : result json :=
  match op with
  | OpStandUp => Json.assign "command" (JString "standUp") JNull
  | OpLieDown => Json.assign "command" (JString "lieDown") JNull
  | OpPassive => Json.assign "command" (JString "passive") JNull
  | OpMove vx vy yaw_rate => move_request vx vy yaw_rate
  | OpJump => Json.assign "command" (JString "jump") JNull
  | OpFrontJump => Json.assign "command" (JString "frontJump") JNull
  | OpBackflip => Json.assign "command" (JString "backflip") JNull
  | OpAttitudeControl roll_vel pitch_vel yaw_vel height_vel =>
      attitudeControl_request roll_vel pitch_vel yaw_vel height_vel
  | OpShakeHand => Json.assign "command" (JString "shakeHand") JNull
  | OpTwoLegStand vx yaw_rate => twoLegStand_request vx yaw_rate
  end.

(** The object after calls on its socket and its logger: the socket is in
    state [s], [events] and [lines] were appended to the two records. *)
Definition after_io (c : HighLevelZmqClient) (s : socket_t)
    (events : list io_event) (lines : list log_entry) : HighLevelZmqClient :=
  mkClient s (tcp_endpoint_ c) (connected_ c) (client_type_ c)
           (trace_ c ++ events) (log_ c ++ lines).

(** The object inside [connect], after [socket_.connect] succeeded and
    [connected_] was set: the socket is in state [s]. *)
Definition after_socket_connect (c : HighLevelZmqClient) (s : socket_t)
    : HighLevelZmqClient :=
  mkClient s (tcp_endpoint_ c) true (client_type_ c)
           (trace_ c ++ [io_connect (tcp_endpoint_ c)]) (log_ c).

(** The ways the exchange in [sendRequest] can fail: the serializer, the send
    or the receive throws, the receive delivers no message, or the reply is not
    JSON text. *)
Inductive exchange_fails (request : json) (c : HighLevelZmqClient) : Prop :=
| dump_throws :
    json_dump request = None ->
    exchange_fails request c
| send_throws request_str errnum s1 :
    json_dump request = Some request_str ->
    zmq_send request_str (socket_ c) = (ZErr errnum, s1) ->
    exchange_fails request c
| recv_throws request_str sent s1 errnum s2 :
    json_dump request = Some request_str ->
    zmq_send request_str (socket_ c) = (ZOk sent, s1) ->
    zmq_recv s1 = (ZErr errnum, s2) ->
    exchange_fails request c
| recv_no_message request_str sent s1 s2 :
    json_dump request = Some request_str ->
    zmq_send request_str (socket_ c) = (ZOk sent, s1) ->
    zmq_recv s1 = (ZOk None, s2) ->
    exchange_fails request c
| parse_fails request_str sent s1 reply_str s2 :
    json_dump request = Some request_str ->
    zmq_send request_str (socket_ c) = (ZOk sent, s1) ->
    zmq_recv s1 = (ZOk (Some reply_str), s2) ->
    json_parse reply_str = None ->
    exchange_fails request c.

End Client.

Arguments HighLevelZmqClient E : clear implicits.

(** ** Envelopes named by the specification *)

(** The envelope [{success:false, message:m}] synthesized by [sendRequest]. *)
Definition failure_envelope (message : string) : json :=
  JObject {[ "success" := JBool false; "message" := JString message ]}.

(** The registration envelope named by the wire protocol. *)
Definition register_envelope (client_type : ClientType) : json :=
  JObject {[ "command" := JString "register";
             "params" :=
               JObject {[ "client_type" := JString (client_type_name client_type) ]} ]}.

(** ** A scripted environment

    A socket whose answers are fixed in advance, used to run the client on
    concrete exchanges.  Each kind of call consumes the head of its own list;
    an exhausted list answers with plain success (and no frame for [recv]). *)
Module Scripted.

Record script : Type := mkScript {
  connect_script : list (zmq_result unit);
  send_script : list (zmq_result bool);
  recv_script : list (zmq_result (option string))
}.

Definition next {A} (fallback : zmq_result A) (l : list (zmq_result A))
    : zmq_result A * list (zmq_result A) :=
  match l with
  | [] => (fallback, [])
  | r :: l' => (r, l')
  end.

Definition do_connect (endpoint : string) (s : script) : zmq_result unit * script :=
  let '(r, l) := next (ZOk tt) (connect_script s) in
  (r, mkScript l (send_script s) (recv_script s)).

Definition do_send (msg : string) (s : script) : zmq_result bool * script :=
  let '(r, l) := next (ZOk true) (send_script s) in
  (r, mkScript (connect_script s) l (recv_script s)).

Definition do_recv (s : script) : zmq_result (option string) * script :=
  let '(r, l) := next (ZOk None) (recv_script s) in
  (r, mkScript (connect_script s) (send_script s) l).

(** The double quote, and a quoted word. *)
Definition dq : string := String (ascii_of_nat 34) EmptyString.
Definition quoted (s : string) : string := dq +:+ s +:+ dq.

(** The reply frames used below, as JSON text. *)
Definition frame_success : string :=
  "{" +:+ quoted "success" +:+ ":true}".
Definition frame_failure : string :=
  "{" +:+ quoted "success" +:+ ":false}".
Definition frame_result_2 : string :=
  "{" +:+ quoted "result" +:+ ":2," +:+ quoted "success" +:+ ":true}".
Definition frame_result_2_failure : string :=
  "{" +:+ quoted "result" +:+ ":2," +:+ quoted "success" +:+ ":false}".
Definition frame_failure_message_42 : string :=
  "{" +:+ quoted "message" +:+ ":42," +:+ quoted "success" +:+ ":false}".
Definition frame_failure_two_values : string :=
  "{" +:+ quoted "success" +:+ ":false," +:+ quoted "values" +:+ ":[1,2]}".
Definition frame_array : string := "[1,2]".
Definition frame_garbage : string := "not json".

(** The parser restricted to those frames; any other text is rejected. *)
Definition parse_table : list (string * json) :=
  [ (frame_success, JObject {[ "success" := JBool true ]});
    (frame_failure, JObject {[ "success" := JBool false ]});
    (frame_result_2, JObject {[ "success" := JBool true; "result" := JUInt 2 ]});
    (frame_result_2_failure,
      JObject {[ "success" := JBool false; "result" := JUInt 2 ]});
    (frame_failure_message_42,
      JObject {[ "success" := JBool false; "message" := JUInt 42 ]});
    (frame_failure_two_values,
      JObject {[ "success" := JBool false;
                 "values" := JArray [JUInt 1; JUInt 2] ]});
    (frame_array, JArray [JUInt 1; JUInt 2]) ].

Fixpoint lookup_frame (s : string) (table : list (string * json)) : option json :=
  match table with
  | [] => None
  | (text, j) :: table' => if String.eqb s text then Some j else lookup_frame s table'
  end.

(** The serializer is not exercised by the scripted runs: every request is
    sent as the same placeholder frame. *)
#[export] Instance env : Env := {|
  socket_t := script;
  zmq_setsockopt_identity := fun _ s => (ZOk tt, s);
  zmq_connect := do_connect;
  zmq_send := do_send;
  zmq_recv := do_recv;
  json_dump := fun _ => Some "<request>";
  json_parse := fun s => lookup_frame s parse_table
|}.

(** A client object as the constructor leaves it, and the same object once
    connected. *)
Definition fresh (client_type : ClientType) (s : script) : HighLevelZmqClient env :=
  mkClient s DEFAULT_TCP_ENDPOINT false client_type [] [].

Definition connected (client_type : ClientType) (s : script) : HighLevelZmqClient env :=
  mkClient s DEFAULT_TCP_ENDPOINT true client_type [] [].

End Scripted.

(** ** The public methods as one family

    Every public method that talks to the server, with its arguments; the
    result-code operations and the vector queries are the families above. *)
Inductive facade_op : Type :=
| FSendHeartbeat
| FSetMode (mode : string)
| FGetCurrentMode
| FInitRobot (local_ip : string) (local_port : Z) (dog_ip : string)
| FDeinitRobot
| FCheckConnect
| FResultCode (op : result_code_op)
| FCancelTwoLegStand
| FVectorQuery (q : vector_query)
| FGetCurrentCtrlmode
| FGetBatteryPower.

(** What a method returns: [bool], [uint32_t], [std::string],
    [std::vector<float>] or nothing. *)
Inductive facade_value : Type :=
| VBool (b : bool)
| VCode (n : Z)
| VMode (mode : string)
| VVector (v : list spec_float)
| VVoid.

Section Facade.

Context `{E : Env}.

Definition run_facade_op (op : facade_op) : M facade_value :=
  match op with
  | FSendHeartbeat => bind sendHeartbeat (fun b => ret (VBool b))
  | FSetMode mode => bind (setMode mode) (fun b => ret (VBool b))
  | FGetCurrentMode => bind getCurrentMode (fun s => ret (VMode s))
  | FInitRobot local_ip local_port dog_ip =>
      bind (initRobot local_ip local_port dog_ip) (fun b => ret (VBool b))
  | FDeinitRobot => bind deinitRobot (fun b => ret (VBool b))
  | FCheckConnect => bind checkConnect (fun b => ret (VBool b))
  | FResultCode op => bind (run_result_code_op op) (fun n => ret (VCode n))
  | FCancelTwoLegStand => bind cancelTwoLegStand (fun _ => ret VVoid)
  | FVectorQuery q => bind (run_vector_query q) (fun v => ret (VVector v))
  | FGetCurrentCtrlmode => bind getCurrentCtrlmode (fun n => ret (VCode n))
  | FGetBatteryPower => bind getBatteryPower (fun n => ret (VCode n))
  end.

(** The envelope the method builds. *)
Definition facade_request (op : facade_op) : result json :=
  match op with
  | FSendHeartbeat => Json.assign "command" (JString "heartbeat") JNull
  | FSetMode mode => setMode_request mode
  | FGetCurrentMode => Json.assign "command" (JString "getCurrentMode") JNull
  | FInitRobot local_ip local_port dog_ip =>
      initRobot_request local_ip local_port dog_ip
  | FDeinitRobot => Json.assign "command" (JString "deinitRobot") JNull
  | FCheckConnect => Json.assign "command" (JString "checkConnect") JNull
  | FResultCode op => result_code_request op
  | FCancelTwoLegStand =>
      Json.assign "command" (JString "cancelTwoLegStand") JNull
  | FVectorQuery q => vector_query_request q
  | FGetCurrentCtrlmode =>
      Json.assign "command" (JString "getCurrentCtrlmode") JNull
  | FGetBatteryPower => Json.assign "command" (JString "getBatteryPower") JNull
  end.

(** What the method makes of the response, as its last statements do. *)
Definition facade_decode (op : facade_op) (response : json) : result facade_value :=
  match op with
  | FSendHeartbeat | FSetMode _ | FInitRobot _ _ _ | FDeinitRobot =>
      result_bind (Json.value Json.get_bool "success" false response)
                  (fun b => Ok (VBool b))
  | FCheckConnect =>
      result_bind (Json.value Json.get_bool "connected" false response)
                  (fun b => Ok (VBool b))
  | FGetCurrentMode =>
      result_bind (Json.value Json.get_string "mode" "auto" response)
                  (fun s => Ok (VMode s))
  | FResultCode _ =>
      result_bind (Json.value Json.get_int "result" 0 response)
                  (fun r => Ok (VCode (to_uint32 r)))
  | FGetCurrentCtrlmode | FGetBatteryPower =>
      result_bind (Json.value Json.get_int "value" 0 response)
                  (fun r => Ok (VCode (to_uint32 r)))
  | FCancelTwoLegStand => Ok VVoid
  | FVectorQuery q =>
      if Json.contains "values" response then
        result_bind (Json.index "values" response) (fun values =>
        result_bind (Json.get_vector_float values) (fun v => Ok (VVector v)))
      else Ok (VVector (vector_query_default q))
  end.

(** Whether the method gets as far as its request: everything but [setMode]
    on a client that is not the remote controller. *)
Definition facade_permitted (op : facade_op) (c : HighLevelZmqClient E) : bool :=
  match op with
  | FSetMode _ => ClientType_eqb (client_type_ c) REMOTE_CONTROLLER
  | _ => true
  end.

(** The fallback written in each method. *)
Definition facade_default (op : facade_op) : facade_value :=
  match op with
  | FSendHeartbeat | FSetMode _ | FInitRobot _ _ _ | FDeinitRobot
  | FCheckConnect => VBool false
  | FGetCurrentMode => VMode "auto"
  | FResultCode _ | FGetCurrentCtrlmode | FGetBatteryPower => VCode 0
  | FCancelTwoLegStand => VVoid
  | FVectorQuery q => VVector (vector_query_default q)
  end.

(** The command name on the wire, and whether the envelope carries [params]. *)
Definition facade_command (op : facade_op) : string :=
  match op with
  | FSendHeartbeat => "heartbeat"
  | FSetMode _ => "setMode"
  | FGetCurrentMode => "getCurrentMode"
  | FInitRobot _ _ _ => "initRobot"
  | FDeinitRobot => "deinitRobot"
  | FCheckConnect => "checkConnect"
  | FResultCode OpStandUp => "standUp"
  | FResultCode OpLieDown => "lieDown"
  | FResultCode OpPassive => "passive"
  | FResultCode (OpMove _ _ _) => "move"
  | FResultCode OpJump => "jump"
  | FResultCode OpFrontJump => "frontJump"
  | FResultCode OpBackflip => "backflip"
  | FResultCode (OpAttitudeControl _ _ _ _) => "attitudeControl"
  | FResultCode OpShakeHand => "shakeHand"
  | FResultCode (OpTwoLegStand _ _) => "twoLegStand"
  | FCancelTwoLegStand => "cancelTwoLegStand"
  | FVectorQuery q => vector_query_command q
  | FGetCurrentCtrlmode => "getCurrentCtrlmode"
  | FGetBatteryPower => "getBatteryPower"
  end.

Definition facade_has_params (op : facade_op) : bool :=
  match op with
  | FSetMode _ | FInitRobot _ _ _
  | FResultCode (OpMove _ _ _) | FResultCode (OpAttitudeControl _ _ _ _)
  | FResultCode (OpTwoLegStand _ _) => true
  | _ => false
  end.

(** The field of the response a method returning [bool] reads, and the one
    a method returning [uint32_t] reads. *)
Definition facade_flag_key (op : facade_op) : option string :=
  match op with
  | FSendHeartbeat | FSetMode _ | FInitRobot _ _ _ | FDeinitRobot =>
      Some "success"
  | FCheckConnect => Some "connected"
  | _ => None
  end.

Definition facade_numeric_key (op : facade_op) : option string :=
  match op with
  | FResultCode _ => Some "result"
  | FGetCurrentCtrlmode | FGetBatteryPower => Some "value"
  | _ => None
  end.

End Facade.

(** A JSON value that is an object. *)
Definition is_object (j : json) : bool :=
  match j with
  | JObject _ => true
  | _ => false
  end.

(** ** More scripted replies

    The scripted socket again, with a parser that knows a few more frames. *)
Module Replies.

Definition frame_value_minus_1 : string :=
  "{" +:+ Scripted.quoted "value" +:+ ":-1}".
Definition frame_success_1 : string :=
  "{" +:+ Scripted.quoted "success" +:+ ":1}".
Definition frame_mode_manual : string :=
  "{" +:+ Scripted.quoted "mode" +:+ ":" +:+ Scripted.quoted "manual" +:+ ","
      +:+ Scripted.quoted "success" +:+ ":false}".

Definition parse_table : list (string * json) :=
  [ (frame_value_minus_1, JObject {[ "value" := JInt (-1) ]});
    (frame_success_1, JObject {[ "success" := JUInt 1 ]});
    (frame_mode_manual,
      JObject {[ "mode" := JString "manual"; "success" := JBool false ]}) ]
  ++ Scripted.parse_table.

#[export] Instance env : Env := {|
  socket_t := Scripted.script;
  zmq_setsockopt_identity := fun _ s => (ZOk tt, s);
  zmq_connect := Scripted.do_connect;
  zmq_send := Scripted.do_send;
  zmq_recv := Scripted.do_recv;
  json_dump := fun _ => Some "<request>";
  json_parse := fun s => Scripted.lookup_frame s parse_table
|}.

(** A connected client whose next received frame is [frame]. *)
Definition awaiting (client_type : ClientType) (frame : string)
    : HighLevelZmqClient env :=
  mkClient (Scripted.mkScript [] [] [ZOk (Some frame)]) DEFAULT_TCP_ENDPOINT true
           client_type [] [].

(** The same client after one exchange. *)
Definition served (client_type : ClientType) : HighLevelZmqClient env :=
  mkClient (Scripted.mkScript [] [] []) DEFAULT_TCP_ENDPOINT true client_type
           [io_send "<request>"; io_recv] [].

(** A client that was never connected. *)
Definition idle (client_type : ClientType) : HighLevelZmqClient env :=
  mkClient (Scripted.mkScript [] [] []) DEFAULT_TCP_ENDPOINT false client_type
           [] [].

End Replies.


(** ** Scripted replies with unusual [values]

    The scripted socket once more, with a parser that knows replies whose
    [values] field is null, an array with a string in it, and an array of a
    fraction and of an integer that no [float] represents. *)
Module Unusual.

Definition frame_values_null : string :=
  "{" +:+ Scripted.quoted "success" +:+ ":true,"
      +:+ Scripted.quoted "values" +:+ ":null}".
Definition frame_values_mixed : string :=
  "{" +:+ Scripted.quoted "values" +:+ ":[1," +:+ Scripted.quoted "a" +:+ "]}".
Definition frame_values_rounded : string :=
  "{" +:+ Scripted.quoted "success" +:+ ":false,"
      +:+ Scripted.quoted "values" +:+ ":[0.5,16777217]}".

Definition parse_table : list (string * json) :=
  [ (frame_values_null,
      JObject {[ "success" := JBool true; "values" := JNull ]});
    (frame_values_mixed,
      JObject {[ "values" := JArray [JUInt 1; JString "a"] ]});
    (frame_values_rounded,
      JObject {[ "success" := JBool false;
                 "values" := JArray [JFloat Float64.half; JUInt 16777217] ]}) ]
  ++ Scripted.parse_table.

#[export] Instance env : Env := {|
  socket_t := Scripted.script;
  zmq_setsockopt_identity := fun _ s => (ZOk tt, s);
  zmq_connect := Scripted.do_connect;
  zmq_send := Scripted.do_send;
  zmq_recv := Scripted.do_recv;
  json_dump := fun _ => Some "<request>";
  json_parse := fun s => Scripted.lookup_frame s parse_table
|}.

(** A connected client whose next received frame is [frame], and the same
    client after the exchange. *)
Definition awaiting (frame : string) : HighLevelZmqClient env :=
  mkClient (Scripted.mkScript [] [] [ZOk (Some frame)]) DEFAULT_TCP_ENDPOINT true
           NAVIGATION [] [].

Definition served : HighLevelZmqClient env :=
  mkClient (Scripted.mkScript [] [] []) DEFAULT_TCP_ENDPOINT true NAVIGATION
           [io_send "<request>"; io_recv] [].

(** A client as the constructor leaves it at timestamp [now]. *)
Definition constructed (client_type : ClientType) (now : Z)
    : HighLevelZmqClient env :=
  mkClient (Scripted.mkScript [] [] []) DEFAULT_TCP_ENDPOINT false client_type
           [io_setsockopt_identity (identity client_type now)] [].

End Unusual.

(** * Properties *)

Section Properties.

Context `{E : Env}.

Implicit Types (c : HighLevelZmqClient E) (request response : json).

(** Steps through the monadic plumbing of a method body. *)
Ltac run_M :=
  cbv [bind ret lift this try_catch set_connected LOG LOGE LOGI socket_call];
  cbn [socket_ tcp_endpoint_ connected_ client_type_ trace_ log_].

Tactic Notation "fields" "in" ne_hyp_list(Hs) :=
  cbn [socket_ tcp_endpoint_ connected_ client_type_ trace_ log_] in Hs.

(** ** The synthesized envelopes *)

Lemma build_failure_envelope (message : string) :
  result_bind (Json.assign "success" (JBool false) JNull) (fun error_response =>
    Json.assign "message" (JString message) error_response)
  = Ok (failure_envelope message).
Proof.
  reflexivity.
Qed.

Lemma sendRequest_not_connected c request :
  connected_ c = false ->
  sendRequest request c = (Ok (failure_envelope "Not connected to service"), c).
Proof.
  intros Hc. unfold sendRequest. run_M. rewrite Hc. reflexivity.
Qed.

(** C3: on a Disconnected session [sendRequest] returns the envelope
    [{success:false, message:"Not connected to service"}] and leaves the object
    as it was: the socket is in the same state and no send or receive was added
    to the trace. *)
Theorem sendRequest_disconnected c request :
  isConnected c = false ->
  sendRequest request c = (Ok (failure_envelope "Not connected to service"), c)
  /\ trace_ (snd (sendRequest request c)) = trace_ c
  /\ socket_ (snd (sendRequest request c)) = socket_ c.
Proof.
  intros Hc. unfold isConnected in Hc.
  rewrite (sendRequest_not_connected c request Hc). auto.
Qed.

(** ** Vector queries *)

Lemma run_vector_query_unfold (q : vector_query) :
  run_vector_query q =
  bind (lift (vector_query_request q)) (fun request =>
  bind (sendRequest request) (fun response =>
    if Json.contains "values" response then
      bind (lift (Json.index "values" response)) (fun values =>
      lift (Json.get_vector_float values))
    else ret (vector_query_default q))).
Proof. destruct q; reflexivity. Qed.

Lemma vector_query_request_ok (q : vector_query) :
  vector_query_request q =
  Ok (JObject {[ "command" := JString (vector_query_command q) ]}).
Proof. reflexivity. Qed.

Lemma failure_envelope_no_values (message : string) :
  Json.contains "values" (failure_envelope message) = false.
Proof. reflexivity. Qed.

Lemma vector_query_not_connected (q : vector_query) c :
  connected_ c = false ->
  run_vector_query q c = (Ok (vector_query_default q), c).
Proof.
  intros Hc. rewrite run_vector_query_unfold, vector_query_request_ok.
  run_M. rewrite (sendRequest_not_connected c _ Hc).
  rewrite failure_envelope_no_values. reflexivity.
Qed.

(** C1 (amended): on a Disconnected session every vector query returns its
    default, whose length is the documented one (4 for the quaternion, 3 for
    the triples, 4 for the per-leg arrays) and which is all zero, except for
    [getQuaternion], whose default is the identity quaternion [0, 0, 0, 1]. *)
Theorem vector_query_disconnected (q : vector_query) c :
  isConnected c = false ->
  exists v,
    run_vector_query q c = (Ok v, c)
    /\ length v = documented_length q
    /\ match q with
       | QGetQuaternion =>
           v = [Float32.zero; Float32.zero; Float32.zero; Float32.one]
       | _ => v = repeat Float32.zero (documented_length q)
       end.
Proof.
  intros Hc. exists (vector_query_default q). split.
  - apply vector_query_not_connected, Hc.
  - destruct q; split; reflexivity.
Qed.

(** ** Mode setting *)

(** C4: [setMode] on a client whose role is Navigator returns false; the only
    effect is the logged rejection.  The socket, the trace of transport calls
    and the connection state are those of the object before the call. *)
Theorem setMode_navigator_rejected c (mode : string) :
  getClientType c = NAVIGATION ->
  setMode mode c =
    (Ok false,
     mkClient (socket_ c) (tcp_endpoint_ c) (connected_ c) (client_type_ c)
              (trace_ c) (log_ c ++ [LOGE_entry []]))
  /\ trace_ (snd (setMode mode c)) = trace_ c
  /\ socket_ (snd (setMode mode c)) = socket_ c.
Proof.
  intros Hrole. unfold getClientType in Hrole.
  assert (Hrun : setMode mode c =
    (Ok false,
     mkClient (socket_ c) (tcp_endpoint_ c) (connected_ c) (client_type_ c)
              (trace_ c) (log_ c ++ [LOGE_entry []]))).
  { destruct c as [s ep conn ct tr lg]. cbn in Hrole. subst ct.
    unfold setMode. run_M. reflexivity. }
  rewrite Hrun. auto.
Qed.

(** ** The exchange of [sendRequest] *)

(** What [sendRequest] does on a connected client, by the behaviour of the
    serializer, the socket and the parser. *)
Lemma sendRequest_connected c request :
  connected_ c = true ->
  sendRequest request c =
  match json_dump request with
  | None =>
      (Ok (failure_envelope "Request failed"),
       after_io c (socket_ c) [] [LOGE_entry [ArgWhat (json_type_error 316)]])
  | Some request_str =>
      match zmq_send request_str (socket_ c) with
      | (ZErr n, s1) =>
          (Ok (failure_envelope "Request failed"),
           after_io c s1 [io_send request_str]
                    [LOGE_entry [ArgWhat (zmq_error_t n)]])
      | (ZOk _, s1) =>
          match zmq_recv s1 with
          | (ZErr n, s2) =>
              (Ok (failure_envelope "Request failed"),
               after_io c s2 [io_send request_str; io_recv]
                        [LOGE_entry [ArgWhat (zmq_error_t n)]])
          | (ZOk None, s2) =>
              (Ok (failure_envelope "Request failed"),
               after_io c s2 [io_send request_str; io_recv] [])
          | (ZOk (Some reply_str), s2) =>
              match json_parse reply_str with
              | None =>
                  (Ok (failure_envelope "Request failed"),
                   after_io c s2 [io_send request_str; io_recv]
                            [LOGE_entry [ArgWhat (json_parse_error 101)]])
              | Some reply =>
                  (Ok reply, after_io c s2 [io_send request_str; io_recv] [])
              end
          end
      end
  end.
Proof.
  intros Hc. destruct c as [s ep conn ct tr lg]. cbn in Hc. subst conn.
  unfold sendRequest, after_io, dump, parse. run_M.
  cbn [negb]. destruct (json_dump request) as [request_str|].
  2:{ cbn. rewrite app_nil_r. reflexivity. }
  run_M. destruct (zmq_send request_str s) as [[sent|n] s1].
  2:{ cbn. reflexivity. }
  run_M. destruct (zmq_recv s1) as [[[reply_str|]|n] s2].
  - destruct (json_parse reply_str) as [reply|]; cbn;
      rewrite <- ?app_assoc, ?app_nil_r; reflexivity.
  - cbn. rewrite <- ?app_assoc, ?app_nil_r. reflexivity.
  - cbn. rewrite <- ?app_assoc. reflexivity.
Qed.

(** [sendRequest] always returns: no behaviour of the environment makes it
    throw. *)
Lemma sendRequest_returns c request :
  exists response c', sendRequest request c = (Ok response, c').
Proof.
  destruct (connected_ c) eqn:Hc.
  - rewrite (sendRequest_connected c request Hc).
    destruct (json_dump request) as [request_str|]; [|eauto].
    destruct (zmq_send request_str (socket_ c)) as [[sent|n] s1]; [|eauto].
    destruct (zmq_recv s1) as [[[reply_str|]|n] s2]; [|eauto|eauto].
    destruct (json_parse reply_str); eauto.
  - rewrite (sendRequest_not_connected c request Hc). eauto.
Qed.

(** [sendRequest] changes the socket and the two records, nothing else. *)
Lemma sendRequest_frame c request :
  connected_ (snd (sendRequest request c)) = connected_ c
  /\ client_type_ (snd (sendRequest request c)) = client_type_ c
  /\ tcp_endpoint_ (snd (sendRequest request c)) = tcp_endpoint_ c.
Proof.
  destruct (connected_ c) eqn:Hc.
  - rewrite (sendRequest_connected c request Hc).
    destruct (json_dump request) as [request_str|]; [|cbn; auto].
    destruct (zmq_send request_str (socket_ c)) as [[sent|n] s1]; [|cbn; auto].
    destruct (zmq_recv s1) as [[[reply_str|]|n] s2]; [|cbn; auto|cbn; auto].
    destruct (json_parse reply_str); cbn; auto.
  - rewrite (sendRequest_not_connected c request Hc). cbn. auto.
Qed.

Lemma exchange_fails_request_failed c request :
  connected_ c = true ->
  exchange_fails request c ->
  fst (sendRequest request c) = Ok (failure_envelope "Request failed").
Proof.
  intros Hc Hfail. rewrite (sendRequest_connected c request Hc).
  destruct Hfail as [Hd | s n s1 Hd Hs | s b s1 n s2 Hd Hs Hr
                    | s b s1 s2 Hd Hs Hr | s b s1 r s2 Hd Hs Hr Hp];
    rewrite Hd; try rewrite Hs; try rewrite Hr; try rewrite Hp; reflexivity.
Qed.



(** ** The connection state machine *)

Lemma register_request_ok (client_type : ClientType) :
  register_request client_type = Ok (register_envelope client_type).
Proof. reflexivity. Qed.

Lemma connect_already_connected c :
  connected_ c = true -> connect c = (Ok true, c).
Proof. intros Hc. unfold connect. run_M. rewrite Hc. reflexivity. Qed.

(** [socket_.connect] throws: the handler of [connect] runs. *)
Lemma connect_socket_error c n s1 :
  connected_ c = false ->
  zmq_connect (tcp_endpoint_ c) (socket_ c) = (ZErr n, s1) ->
  connect c =
    (Ok false,
     mkClient s1 (tcp_endpoint_ c) false (client_type_ c)
              (trace_ c ++ [io_connect (tcp_endpoint_ c)])
              (log_ c ++ [LOGE_entry [ArgWhat (zmq_error_t n)]])).
Proof.
  intros Hc Hs. destruct c as [s ep conn ct tr lg]. cbn in Hc, Hs. subst conn.
  unfold connect. run_M. rewrite Hs. run_M. reflexivity.
Qed.

(** The registration reply reads as success. *)
Lemma connect_registered c u s1 response c2 :
  connected_ c = false ->
  zmq_connect (tcp_endpoint_ c) (socket_ c) = (ZOk u, s1) ->
  sendRequest (register_envelope (client_type_ c)) (after_socket_connect c s1)
    = (Ok response, c2) ->
  Json.value Json.get_bool "success" false response = Ok true ->
  connect c =
    (Ok true, after_io c2 (socket_ c2) [] [LOGI_entry [ArgStr (tcp_endpoint_ c)]]).
Proof.
  intros Hc Hs Hr Hv. destruct c as [s ep conn ct tr lg].
  unfold after_socket_connect in Hr. fields in Hc Hs Hr. subst conn.
  unfold connect. run_M. rewrite Hs. run_M. rewrite register_request_ok.
  rewrite Hr, Hv. cbn [negb]. unfold after_io. run_M.
  rewrite app_nil_r. destruct c2; reflexivity.
Qed.

(** The registration reply reads as failure and its message can be logged. *)
Lemma connect_rejected c u s1 response c2 message :
  connected_ c = false ->
  zmq_connect (tcp_endpoint_ c) (socket_ c) = (ZOk u, s1) ->
  sendRequest (register_envelope (client_type_ c)) (after_socket_connect c s1)
    = (Ok response, c2) ->
  Json.value Json.get_bool "success" false response = Ok false ->
  Json.value Json.get_string "message" "unknown error" response = Ok message ->
  connect c =
    (Ok false,
     mkClient (socket_ c2) (tcp_endpoint_ c2) false (client_type_ c2) (trace_ c2)
              (log_ c2 ++ [LOGE_entry [ArgStr message]] ++
                 (if connected_ c2 then [LOGI_entry []] else []))).
Proof.
  intros Hc Hs Hr Hv Hm. destruct c as [s ep conn ct tr lg].
  unfold after_socket_connect in Hr. fields in Hc Hs Hr. subst conn.
  unfold connect. run_M. rewrite Hs. run_M. rewrite register_request_ok.
  rewrite Hr, Hv. cbn [negb]. rewrite Hm. unfold disconnect. run_M.
  destruct c2 as [s2 ep2 conn2 ct2 tr2 lg2]. run_M.
  destruct conn2; run_M; rewrite <- ?app_assoc, ?app_nil_r; reflexivity.
Qed.

(** A reply that [value] cannot read makes [connect] throw: the exception is
    not a [zmq::error_t], the handler does not run and the object stays as
    [sendRequest] left it. *)
Lemma value_throws_type_error {T} (get : json -> result T)
    (Hget : forall j e, get j = Throw e -> is_zmq_error_t e = false)
    (key : string) (default_value : T) response e :
  Json.value get key default_value response = Throw e ->
  is_zmq_error_t e = false.
Proof.
  destruct response; cbn; try (intros [= <-]; reflexivity).
  destruct (o !! key) as [v|]; [apply Hget | discriminate].
Qed.

Lemma get_bool_throws j e : Json.get_bool j = Throw e -> is_zmq_error_t e = false.
Proof. destruct j; cbn; intros [= <-]; reflexivity. Qed.

Lemma get_string_throws j e : Json.get_string j = Throw e -> is_zmq_error_t e = false.
Proof. destruct j; cbn; intros [= <-]; reflexivity. Qed.

Lemma connect_success_unreadable c u s1 response c2 e :
  connected_ c = false ->
  zmq_connect (tcp_endpoint_ c) (socket_ c) = (ZOk u, s1) ->
  sendRequest (register_envelope (client_type_ c)) (after_socket_connect c s1)
    = (Ok response, c2) ->
  Json.value Json.get_bool "success" false response = Throw e ->
  connect c = (Throw e, c2).
Proof.
  intros Hc Hs Hr Hv. destruct c as [s ep conn ct tr lg].
  unfold after_socket_connect in Hr. fields in Hc Hs Hr. subst conn.
  unfold connect. run_M. rewrite Hs. run_M. rewrite register_request_ok.
  rewrite Hr, Hv.
  rewrite (value_throws_type_error _ get_bool_throws _ _ _ _ Hv). reflexivity.
Qed.

Lemma connect_message_unreadable c u s1 response c2 e :
  connected_ c = false ->
  zmq_connect (tcp_endpoint_ c) (socket_ c) = (ZOk u, s1) ->
  sendRequest (register_envelope (client_type_ c)) (after_socket_connect c s1)
    = (Ok response, c2) ->
  Json.value Json.get_bool "success" false response = Ok false ->
  Json.value Json.get_string "message" "unknown error" response = Throw e ->
  connect c = (Throw e, c2).
Proof.
  intros Hc Hs Hr Hv Hm. destruct c as [s ep conn ct tr lg].
  unfold after_socket_connect in Hr. fields in Hc Hs Hr. subst conn.
  unfold connect. run_M. rewrite Hs. run_M. rewrite register_request_ok.
  rewrite Hr, Hv. cbn [negb]. rewrite Hm.
  rewrite (value_throws_type_error _ get_string_throws _ _ _ _ Hm). reflexivity.
Qed.

Lemma disconnect_run c :
  disconnect c =
    (Ok tt,
     mkClient (socket_ c) (tcp_endpoint_ c) false (client_type_ c) (trace_ c)
              (log_ c ++ (if connected_ c then [LOGI_entry []] else []))).
Proof.
  destruct c as [s ep conn ct tr lg]. unfold disconnect. run_M.
  destruct conn; run_M; rewrite ?app_nil_r; reflexivity.
Qed.

Lemma connect_true_connected c c' :
  connect c = (Ok true, c') -> connected_ c' = true.
Proof.
  intros Hrun. destruct (connected_ c) eqn:Hc.
  { rewrite (connect_already_connected c Hc) in Hrun.
    injection Hrun as <-. exact Hc. }
  destruct (zmq_connect (tcp_endpoint_ c) (socket_ c)) as [[u|n] s1] eqn:Hs.
  2:{ rewrite (connect_socket_error c n s1 Hc Hs) in Hrun. discriminate. }
  destruct (sendRequest_returns (after_socket_connect c s1)
              (register_envelope (client_type_ c))) as (response & c2 & Hr).
  pose proof (sendRequest_frame (after_socket_connect c s1)
                (register_envelope (client_type_ c))) as (Hframe & _).
  rewrite Hr in Hframe. cbn [snd after_socket_connect connected_] in Hframe.
  destruct (Json.value Json.get_bool "success" false response) as [[|]|e] eqn:Hv.
  - rewrite (connect_registered c u s1 response c2 Hc Hs Hr Hv) in Hrun.
    injection Hrun as <-. exact Hframe.
  - destruct (Json.value Json.get_string "message" "unknown error" response)
      as [message|e] eqn:Hm.
    + rewrite (connect_rejected c u s1 response c2 message Hc Hs Hr Hv Hm) in Hrun.
      discriminate.
    + rewrite (connect_message_unreadable c u s1 response c2 e Hc Hs Hr Hv Hm)
        in Hrun.
      discriminate.
  - rewrite (connect_success_unreadable c u s1 response c2 e Hc Hs Hr Hv) in Hrun.
    discriminate.
Qed.

(** C5: after a [connect] that returns true the client is connected; after
    [disconnect] it is not; a second [disconnect] changes nothing; and
    [connect] on a connected client returns true and leaves the object as it
    was, so that nothing is sent and no registration takes place. *)
Theorem connection_state_machine c :
  (forall c', connect c = (Ok true, c') -> isConnected c' = true)
  /\ (fst (disconnect c) = Ok tt /\ isConnected (snd (disconnect c)) = false)
  /\ disconnect (snd (disconnect c)) = (Ok tt, snd (disconnect c))
  /\ (isConnected c = true -> connect c = (Ok true, c)).
Proof.
  unfold isConnected. repeat split.
  - apply connect_true_connected.
  - rewrite disconnect_run. reflexivity.
  - rewrite disconnect_run. reflexivity.
  - rewrite (disconnect_run c). cbn [snd]. rewrite disconnect_run.
    cbn [socket_ tcp_endpoint_ connected_ client_type_ trace_ log_].
    rewrite app_nil_r. reflexivity.
  - apply connect_already_connected.
Qed.

(** One call of [sendRequest] makes at most one send and one receive. *)
Lemma sendRequest_trace c request :
  exists events,
    (trace_ (snd (sendRequest request c)) = trace_ c ++ events)%list
    /\ (events = []
        \/ exists request_str,
             events = [io_send request_str]
             \/ events = [io_send request_str; io_recv]).
Proof.
  destruct (connected_ c) eqn:Hc.
  - rewrite (sendRequest_connected c request Hc).
    destruct (json_dump request) as [request_str|].
    2:{ exists []. cbn. auto. }
    destruct (zmq_send request_str (socket_ c)) as [[sent|n] s1].
    2:{ exists [io_send request_str]. cbn. eauto. }
    exists [io_send request_str; io_recv].
    destruct (zmq_recv s1) as [[[reply_str|]|n] s2]; [|cbn; eauto|cbn; eauto].
    destruct (json_parse reply_str); cbn; eauto.
  - rewrite (sendRequest_not_connected c request Hc). exists [].
    cbn. rewrite app_nil_r. auto.
Qed.

(** [connect] on a Disconnected client connects the socket once and makes at
    most one exchange, whatever the outcome: there is no second attempt. *)
Lemma connect_single_attempt c :
  connected_ c = false ->
  exists events,
    (trace_ (snd (connect c))
     = trace_ c ++ io_connect (tcp_endpoint_ c) :: events)%list
    /\ (events = []
        \/ exists request_str,
             events = [io_send request_str]
             \/ events = [io_send request_str; io_recv]).
Proof.
  intros Hc.
  destruct (zmq_connect (tcp_endpoint_ c) (socket_ c)) as [[u|n] s1] eqn:Hs.
  2:{ rewrite (connect_socket_error c n s1 Hc Hs). exists []. cbn. auto. }
  destruct (sendRequest_returns (after_socket_connect c s1)
              (register_envelope (client_type_ c))) as (response & c2 & Hr).
  destruct (sendRequest_trace (after_socket_connect c s1)
              (register_envelope (client_type_ c))) as (events & Ht & Hevents).
  rewrite Hr in Ht. cbn [snd after_socket_connect trace_] in Ht.
  rewrite <- app_assoc in Ht. cbn [app] in Ht.
  exists events. split; [|exact Hevents].
  destruct (Json.value Json.get_bool "success" false response) as [[|]|e] eqn:Hv.
  - rewrite (connect_registered c u s1 response c2 Hc Hs Hr Hv).
    cbn [snd after_io trace_]. rewrite app_nil_r. exact Ht.
  - destruct (Json.value Json.get_string "message" "unknown error" response)
      as [message|e] eqn:Hm.
    + rewrite (connect_rejected c u s1 response c2 message Hc Hs Hr Hv Hm).
      exact Ht.
    + rewrite (connect_message_unreadable c u s1 response c2 e Hc Hs Hr Hv Hm).
      exact Ht.
  - rewrite (connect_success_unreadable c u s1 response c2 e Hc Hs Hr Hv).
    exact Ht.
Qed.

(** On the paths where [connect] reaches its own failure handling, it returns
    false and the client ends Disconnected: [socket_.connect] throws, or the
    response is an object whose [success] is false or absent and whose
    [message] is absent or a string.  The envelope that [sendRequest]
    synthesizes when the exchange fails is such an object. *)
Lemma connect_fails_cleanly c :
  connected_ c = false ->
  (exists n s1, zmq_connect (tcp_endpoint_ c) (socket_ c) = (ZErr n, s1))
  \/ (exists u s1 response c2 message,
        zmq_connect (tcp_endpoint_ c) (socket_ c) = (ZOk u, s1)
        /\ sendRequest (register_envelope (client_type_ c))
                       (after_socket_connect c s1) = (Ok response, c2)
        /\ Json.value Json.get_bool "success" false response = Ok false
        /\ Json.value Json.get_string "message" "unknown error" response
           = Ok message) ->
  fst (connect c) = Ok false /\ connected_ (snd (connect c)) = false.
Proof.
  intros Hc [(n & s1 & Hs) | (u & s1 & response & c2 & message & Hs & Hr & Hv & Hm)].
  - rewrite (connect_socket_error c n s1 Hc Hs). split; reflexivity.
  - rewrite (connect_rejected c u s1 response c2 message Hc Hs Hr Hv Hm).
    split; reflexivity.
Qed.

(** ** Operations returning the result code *)

Lemma run_result_code_op_unfold (op : result_code_op) :
  run_result_code_op op =
  bind (lift (result_code_request op)) (fun request =>
  bind (sendRequest request) (fun response =>
  bind (lift (Json.value Json.get_int "result" 0 response)) (fun r =>
  ret (to_uint32 r)))).
Proof. destruct op; reflexivity. Qed.

Lemma result_code_op_run (op : result_code_op) c request response c' :
  result_code_request op = Ok request ->
  sendRequest request c = (Ok response, c') ->
  run_result_code_op op c =
    (result_bind (Json.value Json.get_int "result" 0 response)
                 (fun r => Ok (to_uint32 r)), c').
Proof.
  intros Hq Hr. rewrite run_result_code_op_unfold. run_M. rewrite Hq, Hr.
  destruct (Json.value Json.get_int "result" 0 response); reflexivity.
Qed.

Lemma result_code_request_ok (op : result_code_op) :
  exists request, result_code_request op = Ok request.
Proof. destruct op; eexists; reflexivity. Qed.

(** On a connected client whose request serializes, the first thing
    [sendRequest] does to the socket is to send the serialized request. *)
Lemma sendRequest_sends c request request_str :
  connected_ c = true ->
  json_dump request = Some request_str ->
  exists rest,
    (trace_ (snd (sendRequest request c)) = trace_ c ++ io_send request_str :: rest)%list.
Proof.
  intros Hc Hd. rewrite (sendRequest_connected c request Hc), Hd.
  destruct (zmq_send request_str (socket_ c)) as [[sent|n] s1]; [|cbn; eauto].
  destruct (zmq_recv s1) as [[[reply_str|]|n] s2]; [|cbn; eauto|cbn; eauto].
  destruct (json_parse reply_str); cbn; eauto.
Qed.

(** C7: the envelope built by [move(1.0, 0.0, 0.5)] is the object with the two
    keys [command] and [params], the command being ["move"] and the parameters
    the object with exactly [vx = 1.0], [vy = 0.0] and [yaw_rate = 0.5]; and
    it is this envelope, serialized, that [move] sends on a connected client. *)
Theorem move_request_envelope :
  move_request Float32.one Float32.zero Float32.half =
    Ok (JObject {[ "command" := JString "move";
                   "params" :=
                     JObject {[ "vx" := JFloat Float64.one;
                                "vy" := JFloat Float64.zero;
                                "yaw_rate" := JFloat Float64.half ]} ]})
  /\ forall c request request_str,
       move_request Float32.one Float32.zero Float32.half = Ok request ->
       isConnected c = true ->
       json_dump request = Some request_str ->
       exists rest,
         (trace_ (snd (move Float32.one Float32.zero Float32.half c))
          = trace_ c ++ io_send request_str :: rest)%list.
Proof.
  split; [reflexivity|].
  intros c request request_str Hq Hc Hd.
  destruct (sendRequest_returns c request) as (response & c' & Hr).
  destruct (sendRequest_sends c request request_str Hc Hd) as (rest & Ht).
  exists rest.
  change (move Float32.one Float32.zero Float32.half)
    with (run_result_code_op (OpMove Float32.one Float32.zero Float32.half)).
  rewrite (result_code_op_run (OpMove Float32.one Float32.zero Float32.half)
             c request response c' Hq Hr).
  rewrite Hr in Ht. exact Ht.
Qed.

(** C8: the result-code operations read the [result] field of the response
    and nothing else.  A response [{success:true, result:2}] gives 2, a
    response [{success:false}] gives 0, as does [{success:true, result:0}];
    and two responses with the same [result] field give the same value,
    whatever their [success] fields. *)
Theorem result_code_reads_result_only (op : result_code_op) request :
  result_code_request op = Ok request ->
  (forall c c',
     sendRequest request c
       = (Ok (JObject {[ "success" := JBool true; "result" := JUInt 2 ]}), c') ->
     run_result_code_op op c = (Ok 2, c'))
  /\ (forall c c',
        sendRequest request c = (Ok (JObject {[ "success" := JBool false ]}), c') ->
        run_result_code_op op c = (Ok 0, c'))
  /\ (forall c c',
        sendRequest request c
          = (Ok (JObject {[ "success" := JBool true; "result" := JUInt 0 ]}), c') ->
        run_result_code_op op c = (Ok 0, c'))
  /\ (forall c1 c1' c2 c2' (o1 o2 : gmap string json),
        sendRequest request c1 = (Ok (JObject o1), c1') ->
        sendRequest request c2 = (Ok (JObject o2), c2') ->
        o1 !! "result" = o2 !! "result" ->
        fst (run_result_code_op op c1) = fst (run_result_code_op op c2)).
Proof.
  intros Hq. repeat split.
  - intros c c' Hr. rewrite (result_code_op_run op c request _ c' Hq Hr). reflexivity.
  - intros c c' Hr. rewrite (result_code_op_run op c request _ c' Hq Hr). reflexivity.
  - intros c c' Hr. rewrite (result_code_op_run op c request _ c' Hq Hr). reflexivity.
  - intros c1 c1' c2 c2' o1 o2 Hr1 Hr2 Ho.
    rewrite (result_code_op_run op c1 request _ c1' Hq Hr1).
    rewrite (result_code_op_run op c2 request _ c2' Hq Hr2).
    cbn [fst Json.value]. rewrite Ho. reflexivity.
Qed.

(** ** Vector queries on arbitrary responses *)

Lemma vector_query_run (q : vector_query) c request response c' :
  vector_query_request q = Ok request ->
  sendRequest request c = (Ok response, c') ->
  run_vector_query q c =
    (if Json.contains "values" response then
       result_bind (Json.index "values" response) Json.get_vector_float
     else Ok (vector_query_default q), c').
Proof.
  intros Hq Hr. rewrite run_vector_query_unfold. run_M. rewrite Hq, Hr.
  destruct (Json.contains "values" response); [|reflexivity].
  destruct (Json.index "values" response); reflexivity.
Qed.

Lemma result_mapM_length {A B} (f : A -> result B) (l : list A) (l' : list B) :
  result_mapM f l = Ok l' -> length l' = length l.
Proof.
  revert l'. induction l as [|x l IH]; intros l'; cbn.
  - intros [= <-]. reflexivity.
  - destruct (f x) as [y|e]; cbn; [|discriminate].
    destruct (result_mapM f l) as [ys|e]; cbn; [|discriminate].
    intros [= <-]. cbn. f_equal. apply IH. reflexivity.
Qed.

(** A [values] field that is not an array of numbers makes the query throw a
    [type_error]. *)
Lemma vector_query_values_not_array (q : vector_query) c request c'
    (o : gmap string json) (s : string) :
  vector_query_request q = Ok request ->
  sendRequest request c = (Ok (JObject o), c') ->
  o !! "values" = Some (JString s) ->
  run_vector_query q c = (Throw (json_type_error 302), c').
Proof.
  intros Hq Hr Ho. rewrite (vector_query_run q c request _ c' Hq Hr).
  cbn [Json.contains Json.index]. rewrite Ho. reflexivity.
Qed.

Lemma result_mapM_Forall2 {A B} (f : A -> result B) (l : list A) (l' : list B) :
  result_mapM f l = Ok l' -> Forall2 (fun x y => f x = Ok y) l l'.
Proof.
  revert l'. induction l as [|x l IH]; intros l'; cbn.
  - intros [= <-]. constructor.
  - destruct (f x) as [y|e] eqn:Hx; cbn; [|discriminate].
    destruct (result_mapM f l) as [ys|e]; cbn; [|discriminate].
    intros [= <-]. constructor; [exact Hx | apply IH; reflexivity].
Qed.

Lemma get_float_throws_302 j e :
  Json.get_float j = Throw e -> e = json_type_error 302.
Proof. destruct j; cbn; intros [= <-]; reflexivity. Qed.

Lemma get_vector_float_throws_302 j e :
  Json.get_vector_float j = Throw e -> e = json_type_error 302.
Proof.
  destruct j; cbn; try (intros [= <-]; reflexivity).
  induction l as [|x l IH]; cbn; [discriminate|].
  destruct (Json.get_float x) as [y|e'] eqn:Hx; cbn.
  - destruct (result_mapM Json.get_float l) as [ys|e'']; cbn; [discriminate|].
    intros [= <-]. apply IH. reflexivity.
  - intros [= <-]. exact (get_float_throws_302 x e' Hx).
Qed.

(** C10 (amended): when the response has a [values] field holding an array
    whose elements are numbers or booleans, a vector query returns that array,
    every element converted to [float] by [get<float>], in order and with the
    length of the array, whatever the [success] field says and whatever length
    is documented; when the [values] field holds anything else (no array, or
    an array with an element that is no number) the query throws [type_error]
    302; the fixed default is returned exactly when the response has no
    [values] field. *)
Theorem vector_query_returns_values (q : vector_query) request :
  vector_query_request q = Ok request ->
  (forall c c' (o : gmap string json) (xs : list json) (fs : list spec_float),
     sendRequest request c = (Ok (JObject o), c') ->
     o !! "values" = Some (JArray xs) ->
     result_mapM Json.get_float xs = Ok fs ->
     run_vector_query q c = (Ok fs, c')
     /\ length fs = length xs
     /\ Forall2 (fun x f => Json.get_float x = Ok f) xs fs)
  /\ (forall c c' response,
        sendRequest request c = (Ok response, c') ->
        Json.contains "values" response = false ->
        run_vector_query q c = (Ok (vector_query_default q), c'))
  /\ (forall c c' (o : gmap string json) (v : json) e,
        sendRequest request c = (Ok (JObject o), c') ->
        o !! "values" = Some v ->
        Json.get_vector_float v = Throw e ->
        run_vector_query q c = (Throw (json_type_error 302), c'))
  /\ (forall v, (forall xs, v <> JArray xs) ->
        Json.get_vector_float v = Throw (json_type_error 302))
  /\ (forall xs x, In x xs -> (forall f, Json.get_float x <> Ok f) ->
        Json.get_vector_float (JArray xs) = Throw (json_type_error 302)).
Proof.
  intros Hq. split; [|split; [|split; [|split]]].
  - intros c c' o xs fs Hr Ho Hfs. split; [|split].
    + rewrite (vector_query_run q c request _ c' Hq Hr).
      cbn [Json.contains Json.index]. rewrite Ho. cbn. rewrite Hfs. reflexivity.
    + eapply result_mapM_length; eassumption.
    + apply result_mapM_Forall2. exact Hfs.
  - intros c c' response Hr Hv.
    rewrite (vector_query_run q c request _ c' Hq Hr), Hv. reflexivity.
  - intros c c' o v e Hr Ho He.
    rewrite (vector_query_run q c request _ c' Hq Hr).
    cbn [Json.contains Json.index]. rewrite Ho. cbn.
    rewrite He, (get_vector_float_throws_302 v e He). reflexivity.
  - intros v Hv. destruct v; try reflexivity. destruct (Hv l). reflexivity.
  - intros xs x Hin Hx.
    destruct (Json.get_vector_float (JArray xs)) as [fs|e] eqn:Hfs.
    + cbn in Hfs. apply result_mapM_Forall2 in Hfs.
      exfalso. revert Hin. induction Hfs as [|x' f l l' Hxf _ IH]; cbn.
      * intros [].
      * intros [<- | Hin]; [exact (Hx f Hxf) | exact (IH Hin)].
    + rewrite (get_vector_float_throws_302 _ e Hfs). reflexivity.
Qed.

(** ** The identity of a client *)

Lemma to_int_not_nil (n : Z) :
  Z.to_int n <> Decimal.Pos Decimal.Nil /\ Z.to_int n <> Decimal.Neg Decimal.Nil.
Proof.
  destruct n as [|p|p]; cbn; split; try discriminate;
    intros [= H]; exact (DecimalPos.Unsigned.to_uint_nonnil p H).
Qed.

Lemma to_string_inj (a b : Z) : to_string a = to_string b -> a = b.
Proof.
  unfold to_string. intros H.
  apply DecimalZ.to_int_inj.
  destruct (to_int_not_nil a) as [Ha1 Ha2], (to_int_not_nil b) as [Hb1 Hb2].
  pose proof (NilZero.isi (Z.to_int a) Ha1 Ha2) as Ia.
  pose proof (NilZero.isi (Z.to_int b) Hb1 Hb2) as Ib.
  rewrite H in Ia. rewrite Ia in Ib. injection Ib as Ib. exact Ib.
Qed.

Lemma identity_inj (ct1 ct2 : ClientType) (t1 t2 : Z) :
  identity ct1 t1 = identity ct2 t2 -> ct1 = ct2 /\ t1 = t2.
Proof.
  unfold identity. destruct ct1, ct2; cbn; intros H; try discriminate;
    injection H as H; split; try reflexivity; apply to_string_inj, H.
Qed.

(** C9: the identity set on the socket by the constructor is the role tag,
    an underscore and the timestamp in decimal, the tag being ["rc"] for
    REMOTE_CONTROLLER and ["nav"] for NAVIGATION; two clients constructed at
    distinct timestamps get distinct identities, whatever their roles; and the
    constructor does return a client, with that identity set, whenever the
    socket accepts the option. *)
Theorem identity_of_client :
  (forall (client_type : ClientType) (tcp_endpoint : string) (now : Z) s0 c,
     construct client_type tcp_endpoint now s0 = Ok c ->
     trace_ c =
       [io_setsockopt_identity
          ((match client_type with
            | REMOTE_CONTROLLER => "rc"
            | NAVIGATION => "nav"
            end) +:+ "_" +:+ to_string now)])
  /\ (forall (client_type1 client_type2 : ClientType) (t1 t2 : Z),
        t1 <> t2 ->
        identity client_type1 t1 <> identity client_type2 t2)
  /\ (forall (client_type : ClientType) (tcp_endpoint : string) (now : Z)
             s0 u s1,
        zmq_setsockopt_identity
          ((match client_type with
            | REMOTE_CONTROLLER => "rc"
            | NAVIGATION => "nav"
            end) +:+ "_" +:+ to_string now) s0 = (ZOk u, s1) ->
        exists c,
          construct client_type tcp_endpoint now s0 = Ok c
          /\ socket_ c = s1).
Proof.
  split; [|split].
  - intros client_type tcp_endpoint now s0 c. unfold construct.
    destruct (zmq_setsockopt_identity (identity client_type now) s0)
      as [[u|n] s1]; [|discriminate].
    intros [= <-]. cbn [trace_]. destruct client_type; reflexivity.
  - intros client_type1 client_type2 t1 t2 Hne H.
    apply identity_inj in H. destruct H as [_ H]. exact (Hne H).
  - intros client_type tcp_endpoint now s0 u s1 Hs. unfold construct.
    replace (identity client_type now)
      with ((match client_type with
             | REMOTE_CONTROLLER => "rc"
             | NAVIGATION => "nav"
             end) +:+ "_" +:+ to_string now)
      by (destruct client_type; reflexivity).
    rewrite Hs. eexists. split; reflexivity.
Qed.

End Properties.

(** * Further properties of the client *)

Section Coverage.

Context `{E : Env}.

Implicit Types (c : HighLevelZmqClient E) (request response : json).

Ltac step_M :=
  cbv [bind ret lift this try_catch set_connected LOG LOGE LOGI socket_call];
  cbn [socket_ tcp_endpoint_ connected_ client_type_ trace_ log_].

(** ** One exchange *)

(** X1: on a connected client, when the request serializes, the send does not
    throw (whichever boolean it returns), a frame is received and it parses,
    [sendRequest] returns the parsed value as it is, after exactly one send
    and one receive and without logging. *)
Theorem sendRequest_round_trip c request request_str (sent : bool) s1 reply_str
    s2 reply :
  isConnected c = true ->
  json_dump request = Some request_str ->
  zmq_send request_str (socket_ c) = (ZOk sent, s1) ->
  zmq_recv s1 = (ZOk (Some reply_str), s2) ->
  json_parse reply_str = Some reply ->
  sendRequest request c
  = (Ok reply,
     mkClient s2 (tcp_endpoint_ c) (connected_ c) (client_type_ c)
              (trace_ c ++ [io_send request_str; io_recv]) (log_ c)).
Proof.
  intros Hc Hd Hs Hr Hp. rewrite (sendRequest_connected c request Hc).
  rewrite Hd, Hs, Hr, Hp. unfold after_io. rewrite app_nil_r. reflexivity.
Qed.

(** X2: one call of [sendRequest] makes at most one send and at most one
    receive, and a receive only after a send; on a Disconnected client it
    makes none, and on a connected client whose request serializes it does
    send. *)
Theorem sendRequest_one_round_trip c request :
  exists events,
    (trace_ (snd (sendRequest request c)) = trace_ c ++ events)%list
    /\ (events = []
        \/ exists request_str,
             events = [io_send request_str]
             \/ events = [io_send request_str; io_recv])
    /\ (isConnected c = false -> events = [])
    /\ (forall request_str,
          isConnected c = true ->
          json_dump request = Some request_str ->
          exists rest, events = io_send request_str :: rest).
Proof.
  unfold isConnected. destruct (connected_ c) eqn:Hc.
  - rewrite (sendRequest_connected c request Hc).
    destruct (json_dump request) as [request_str|].
    2:{ exists []. cbn. repeat split; auto; discriminate. }
    destruct (zmq_send request_str (socket_ c)) as [[sent|n] s1].
    2:{ exists [io_send request_str]. cbn. split; [reflexivity|].
        split; [eauto|]. split; [discriminate|].
        intros r _ [= <-]. eauto. }
    exists [io_send request_str; io_recv].
    assert (Hrest : (exists r, [io_send request_str; io_recv]
                       = [io_send r] \/ [io_send request_str; io_recv]
                       = [io_send r; io_recv])
                    /\ (true = false -> [io_send request_str; io_recv] = [])
                    /\ (forall r, true = true -> Some request_str = Some r ->
                          exists rest,
                            [io_send request_str; io_recv] = io_send r :: rest)).
    { split; [eauto|]. split; [discriminate|]. intros r _ [= <-]. eauto. }
    destruct Hrest as (H1 & H2 & H3).
    destruct (zmq_recv s1) as [[[reply_str|]|n] s2];
      [destruct (json_parse reply_str)| |]; cbn; auto.
  - rewrite (sendRequest_not_connected c request Hc). exists [].
    cbn. rewrite app_nil_r. repeat split; auto. discriminate.
Qed.

(** X3: [sendRequest] never changes the connection flag, the role or the
    endpoint: a failed exchange does not disconnect the client. *)
Theorem sendRequest_keeps_session c request :
  isConnected (snd (sendRequest request c)) = isConnected c
  /\ getClientType (snd (sendRequest request c)) = getClientType c
  /\ tcp_endpoint_ (snd (sendRequest request c)) = tcp_endpoint_ c.
Proof. apply sendRequest_frame. Qed.

(** ** Connecting *)

(** X4: [connect] on a Disconnected client returns false and leaves it
    Disconnected when [socket_.connect] throws, and when the response to the
    registration is an object whose [success] is false or absent and whose
    [message] is absent or a string. *)
Theorem connect_failure_is_clean c :
  isConnected c = false ->
  (exists n s1, zmq_connect (tcp_endpoint_ c) (socket_ c) = (ZErr n, s1))
  \/ (exists u s1 (o : gmap string json) c2,
        zmq_connect (tcp_endpoint_ c) (socket_ c) = (ZOk u, s1)
        /\ sendRequest (register_envelope (client_type_ c))
                       (after_socket_connect c s1) = (Ok (JObject o), c2)
        /\ (o !! "success" = None \/ o !! "success" = Some (JBool false))
        /\ (o !! "message" = None
            \/ exists message, o !! "message" = Some (JString message))) ->
  fst (connect c) = Ok false /\ isConnected (snd (connect c)) = false.
Proof.
  intros Hc [Herr | (u & s1 & o & c2 & Hs & Hr & Hsuccess & Hmessage)].
  - apply connect_fails_cleanly; [exact Hc | left; exact Herr].
  - assert (Hv : Json.value Json.get_bool "success" false (JObject o) = Ok false).
    { cbn. destruct Hsuccess as [-> | ->]; reflexivity. }
    assert (Hm : exists message,
               Json.value Json.get_string "message" "unknown error" (JObject o)
               = Ok message).
    { cbn. destruct Hmessage as [-> | (message & ->)]; eauto. }
    destruct Hm as (message & Hm).
    apply connect_fails_cleanly; [exact Hc | right; eauto 10].
Qed.

(** X5: [connect] on a Disconnected client calls [socket_.connect] once and
    then makes at most one send and one receive, whatever the outcome: there
    is no second attempt. *)
Theorem connect_makes_one_attempt c :
  isConnected c = false ->
  exists events,
    (trace_ (snd (connect c))
     = trace_ c ++ io_connect (tcp_endpoint_ c) :: events)%list
    /\ (events = []
        \/ exists request_str,
             events = [io_send request_str]
             \/ events = [io_send request_str; io_recv]).
Proof. apply connect_single_attempt. Qed.

(** X6: [connect] on a Disconnected client returns true exactly when
    [socket_.connect] succeeds and the response to the registration reads
    [success = true]; it never reports success without that reply. *)
Theorem connect_true_iff_registered c :
  isConnected c = false ->
  fst (connect c) = Ok true
  <-> exists u s1 response c2,
        zmq_connect (tcp_endpoint_ c) (socket_ c) = (ZOk u, s1)
        /\ sendRequest (register_envelope (client_type_ c))
                       (after_socket_connect c s1) = (Ok response, c2)
        /\ Json.value Json.get_bool "success" false response = Ok true.
Proof.
  intros Hc. split.
  - intros Hrun.
    destruct (zmq_connect (tcp_endpoint_ c) (socket_ c)) as [[u|n] s1] eqn:Hs.
    2:{ rewrite (connect_socket_error c n s1 Hc Hs) in Hrun. discriminate. }
    destruct (sendRequest_returns (after_socket_connect c s1)
                (register_envelope (client_type_ c))) as (response & c2 & Hr).
    exists u, s1, response, c2. split; [reflexivity|]. split; [exact Hr|].
    destruct (Json.value Json.get_bool "success" false response)
      as [[|]|e] eqn:Hv; [reflexivity| |].
    + destruct (Json.value Json.get_string "message" "unknown error" response)
        as [message|e] eqn:Hm.
      * rewrite (connect_rejected c u s1 response c2 message Hc Hs Hr Hv Hm)
          in Hrun.
        discriminate.
      * rewrite (connect_message_unreadable c u s1 response c2 e Hc Hs Hr Hv Hm)
          in Hrun.
        discriminate.
    + rewrite (connect_success_unreadable c u s1 response c2 e Hc Hs Hr Hv)
        in Hrun.
      discriminate.
  - intros (u & s1 & response & c2 & Hs & Hr & Hv).
    rewrite (connect_registered c u s1 response c2 Hc Hs Hr Hv). reflexivity.
Qed.

(** X7: once [socket_.connect] has succeeded, the first frame [connect] sends
    is the registration [{command:"register", params:{client_type:role}}],
    serialized, the role being ["remote_controller"] or ["navigation"]. *)
Theorem connect_sends_registration c u s1 request_str :
  isConnected c = false ->
  zmq_connect (tcp_endpoint_ c) (socket_ c) = (ZOk u, s1) ->
  json_dump
    (JObject {[ "command" := JString "register";
                "params" :=
                  JObject {[ "client_type" :=
                               JString (match client_type_ c with
                                        | REMOTE_CONTROLLER => "remote_controller"
                                        | NAVIGATION => "navigation"
                                        end) ]} ]})
    = Some request_str ->
  exists rest,
    (trace_ (snd (connect c))
     = trace_ c ++ io_connect (tcp_endpoint_ c) :: io_send request_str :: rest)%list.
Proof.
  intros Hc Hs Hd.
  destruct (sendRequest_returns (after_socket_connect c s1)
              (register_envelope (client_type_ c))) as (response & c2 & Hr).
  assert (Hd' : json_dump (register_envelope (client_type_ c)) = Some request_str).
  { unfold register_envelope. destruct (client_type_ c); exact Hd. }
  destruct (sendRequest_sends (after_socket_connect c s1)
              (register_envelope (client_type_ c)) request_str eq_refl Hd')
    as (rest & Ht).
  rewrite Hr in Ht. cbn [snd after_socket_connect trace_] in Ht.
  rewrite <- app_assoc in Ht. cbn [app] in Ht.
  exists rest.
  destruct (Json.value Json.get_bool "success" false response) as [[|]|e] eqn:Hv.
  - rewrite (connect_registered c u s1 response c2 Hc Hs Hr Hv).
    cbn [snd after_io trace_]. rewrite app_nil_r. exact Ht.
  - destruct (Json.value Json.get_string "message" "unknown error" response)
      as [message|e] eqn:Hm.
    + rewrite (connect_rejected c u s1 response c2 message Hc Hs Hr Hv Hm).
      exact Ht.
    + rewrite (connect_message_unreadable c u s1 response c2 e Hc Hs Hr Hv Hm).
      exact Ht.
  - rewrite (connect_success_unreadable c u s1 response c2 e Hc Hs Hr Hv).
    exact Ht.
Qed.

(** X8: [disconnect] makes no call on the socket, and after it every request
    is refused locally with ["Not connected to service"], from any state. *)
Theorem disconnect_then_request_refused c request :
  socket_ (snd (disconnect c)) = socket_ c
  /\ trace_ (snd (disconnect c)) = trace_ c
  /\ sendRequest request (snd (disconnect c))
     = (Ok (failure_envelope "Not connected to service"), snd (disconnect c)).
Proof.
  rewrite disconnect_run. cbn [snd socket_ trace_].
  split; [reflexivity|]. split; [reflexivity|].
  apply sendRequest_not_connected. reflexivity.
Qed.

(** ** The public methods *)

Lemma facade_request_ok (op : facade_op) :
  exists request, facade_request op = Ok request.
Proof.
  destruct op as [| | | | | |op| |q| |]; try destruct op; eexists; reflexivity.
Qed.

(** A method that gets as far as its request returns what its last statements
    make of the response of [sendRequest], in the state [sendRequest] left. *)
Lemma facade_run (op : facade_op) c request response c' :
  facade_permitted op c = true ->
  facade_request op = Ok request ->
  sendRequest request c = (Ok response, c') ->
  run_facade_op op c = (facade_decode op response, c').
Proof.
  intros Hp Hq Hr.
  destruct op as [|mode| |local_ip local_port dog_ip| | |op| |q| |];
    cbn [run_facade_op facade_request facade_decode] in *.
  - unfold sendHeartbeat. step_M. rewrite Hq, Hr.
    destruct (Json.value Json.get_bool "success" false response); reflexivity.
  - destruct c as [s ep conn ct tr lg]. cbn in Hp. destruct ct; [|discriminate].
    unfold setMode. step_M. cbn [negb ClientType_eqb]. rewrite Hq, Hr.
    destruct (Json.value Json.get_bool "success" false response); reflexivity.
  - unfold getCurrentMode. step_M. rewrite Hq, Hr.
    destruct (Json.value Json.get_string "mode" "auto" response); reflexivity.
  - unfold initRobot. step_M. rewrite Hq, Hr.
    destruct (Json.value Json.get_bool "success" false response); reflexivity.
  - unfold deinitRobot. step_M. rewrite Hq, Hr.
    destruct (Json.value Json.get_bool "success" false response); reflexivity.
  - unfold checkConnect. step_M. rewrite Hq, Hr.
    destruct (Json.value Json.get_bool "connected" false response); reflexivity.
  - unfold bind at 1. rewrite (result_code_op_run op c request response c' Hq Hr).
    destruct (Json.value Json.get_int "result" 0 response); reflexivity.
  - unfold cancelTwoLegStand. step_M. rewrite Hq, Hr. reflexivity.
  - unfold bind at 1. rewrite (vector_query_run q c request response c' Hq Hr).
    destruct (Json.contains "values" response); [|reflexivity].
    destruct (Json.index "values" response) as [values|]; [|reflexivity].
    cbn [result_bind]. destruct (Json.get_vector_float values); reflexivity.
  - unfold getCurrentCtrlmode. step_M. rewrite Hq, Hr.
    destruct (Json.value Json.get_int "value" 0 response); reflexivity.
  - unfold getBatteryPower. step_M. rewrite Hq, Hr.
    destruct (Json.value Json.get_int "value" 0 response); reflexivity.
Qed.

(** [setMode] on a client that is not the remote controller. *)
Lemma facade_refused (op : facade_op) c :
  facade_permitted op c = false ->
  run_facade_op op c
  = (Ok (VBool false),
     mkClient (socket_ c) (tcp_endpoint_ c) (connected_ c) (client_type_ c)
              (trace_ c) (log_ c ++ [LOGE_entry []])).
Proof.
  intros Hp. destruct op; try discriminate.
  destruct c as [s ep conn ct tr lg]. cbn in Hp. destruct ct; [discriminate|].
  cbn [run_facade_op]. unfold setMode. step_M. reflexivity.
Qed.

Lemma facade_decode_failure_envelope (op : facade_op) (message : string) :
  facade_decode op (failure_envelope message) = Ok (facade_default op).
Proof. destruct op; reflexivity. Qed.

Lemma facade_disconnected_default_aux (op : facade_op) c :
  connected_ c = false ->
  fst (run_facade_op op c) = Ok (facade_default op)
  /\ trace_ (snd (run_facade_op op c)) = trace_ c
  /\ socket_ (snd (run_facade_op op c)) = socket_ c.
Proof.
  intros Hc. destruct (facade_permitted op c) eqn:Hp.
  - destruct (facade_request_ok op) as (request & Hq).
    rewrite (facade_run op c request _ c Hp Hq
               (sendRequest_not_connected c request Hc)).
    rewrite facade_decode_failure_envelope. auto.
  - rewrite (facade_refused op c Hp). destruct op; try discriminate. auto.
Qed.

(** X9: on a Disconnected client every public method returns its fallback
    (false, 0, ["auto"], the default vector, or nothing) and makes no call on
    the socket. *)
Theorem facade_disconnected_default (op : facade_op) c :
  isConnected c = false ->
  fst (run_facade_op op c) = Ok (facade_default op)
  /\ trace_ (snd (run_facade_op op c)) = trace_ c
  /\ socket_ (snd (run_facade_op op c)) = socket_ c.
Proof.
  apply facade_disconnected_default_aux.
Qed.

(** X10: on a connected client, when the exchange fails (the serializer, the
    send or the receive throws, no message is received, or the reply is not
    JSON), every public method returns its fallback; nothing is thrown. *)
Theorem facade_exchange_failure_default (op : facade_op) c request :
  isConnected c = true ->
  facade_request op = Ok request ->
  exchange_fails request c ->
  fst (run_facade_op op c) = Ok (facade_default op).
Proof.
  intros Hc Hq Hfail. destruct (facade_permitted op c) eqn:Hp.
  - pose proof (exchange_fails_request_failed c request Hc Hfail) as Hr.
    destruct (sendRequest request c) as [r c'] eqn:Hrun. cbn [fst] in Hr. subst r.
    rewrite (facade_run op c request _ c' Hp Hq Hrun).
    rewrite facade_decode_failure_envelope. reflexivity.
  - rewrite (facade_refused op c Hp). destruct op; try discriminate. reflexivity.
Qed.

(** X11: when the reply parses to a JSON value that is not an object (an
    array, a number, a string, null), the methods that read a field with
    [value] throw [type_error] 306; the vector queries return their default
    and [cancelTwoLegStand] returns. *)
Theorem facade_reply_not_an_object (op : facade_op) c request response c' :
  facade_permitted op c = true ->
  facade_request op = Ok request ->
  sendRequest request c = (Ok response, c') ->
  is_object response = false ->
  run_facade_op op c
  = (match op with
     | FCancelTwoLegStand => Ok VVoid
     | FVectorQuery q => Ok (VVector (vector_query_default q))
     | _ => Throw (json_type_error 306)
     end, c').
Proof.
  intros Hp Hq Hr Hobj. rewrite (facade_run op c request response c' Hp Hq Hr).
  destruct response; try discriminate; destruct op; reflexivity.
Qed.

(** X12: no public method changes the connection flag, the role or the
    endpoint, and each makes at most one send and one receive. *)
Theorem facade_keeps_session (op : facade_op) c :
  isConnected (snd (run_facade_op op c)) = isConnected c
  /\ getClientType (snd (run_facade_op op c)) = getClientType c
  /\ tcp_endpoint_ (snd (run_facade_op op c)) = tcp_endpoint_ c
  /\ exists events,
       (trace_ (snd (run_facade_op op c)) = trace_ c ++ events)%list
       /\ (events = []
           \/ exists request_str,
                events = [io_send request_str]
                \/ events = [io_send request_str; io_recv]).
Proof.
  destruct (facade_permitted op c) eqn:Hp.
  - destruct (facade_request_ok op) as (request & Hq).
    destruct (sendRequest_returns c request) as (response & c' & Hr).
    rewrite (facade_run op c request response c' Hp Hq Hr). cbn [snd].
    pose proof (sendRequest_frame c request) as (H1 & H2 & H3).
    pose proof (sendRequest_trace c request) as Ht.
    rewrite Hr in H1, H2, H3, Ht. cbn [snd] in H1, H2, H3, Ht. auto.
  - rewrite (facade_refused op c Hp). cbn. repeat split.
    exists []. rewrite app_nil_r. auto.
Qed.

(** ** Reading the fields of a response *)

Lemma to_uint32_wrap_int32 (n : Z) : to_uint32 (wrap_int32 n) = n mod 2 ^ 32.
Proof.
  unfold to_uint32, wrap_int32.
  rewrite Zminus_mod, Zmod_mod, <- Zminus_mod. f_equal. lia.
Qed.

Lemma to_uint32_range (z : Z) : 0 <= to_uint32 z < 2 ^ 32.
Proof. unfold to_uint32. apply Z.mod_pos_bound. lia. Qed.

(** X13: a method returning [uint32_t] reads its field ([result], or [value]
    for the two status queries) as an [int] and converts: an integer [n] in
    the response comes back as [n mod 2^32] (so [-1] becomes [4294967295]), an
    absent field as 0, and a string there makes the method throw
    [type_error] 302.  Whatever is returned lies in [[0, 2^32)]. *)
Theorem facade_numeric_field (op : facade_op) (key : string) c request
    (o : gmap string json) c' :
  facade_numeric_key op = Some key ->
  facade_request op = Ok request ->
  sendRequest request c = (Ok (JObject o), c') ->
  (forall n, o !! key = Some (JInt n) \/ o !! key = Some (JUInt n) ->
     run_facade_op op c = (Ok (VCode (n mod 2 ^ 32)), c'))
  /\ (o !! key = None -> run_facade_op op c = (Ok (VCode 0), c'))
  /\ (forall s, o !! key = Some (JString s) ->
        run_facade_op op c = (Throw (json_type_error 302), c'))
  /\ (forall r, fst (run_facade_op op c) = Ok (VCode r) -> 0 <= r < 2 ^ 32).
Proof.
  intros Hk Hq Hr.
  assert (Hp : facade_permitted op c = true) by (destruct op; try discriminate; reflexivity).
  rewrite (facade_run op c request _ c' Hp Hq Hr).
  assert (Hdec : facade_decode op (JObject o)
                 = result_bind (Json.value Json.get_int key 0 (JObject o))
                               (fun r => Ok (VCode (to_uint32 r)))).
  { destruct op; try discriminate; injection Hk as <-; reflexivity. }
  rewrite Hdec. cbn [Json.value fst]. split; [|split; [|split]].
  - intros n [-> | ->]; cbn; rewrite to_uint32_wrap_int32; reflexivity.
  - intros ->. reflexivity.
  - intros s ->. reflexivity.
  - intros r. destruct (o !! key) as [v|]; cbn.
    + destruct (Json.get_int v) as [z|e]; cbn; [|discriminate].
      intros [= <-]. apply to_uint32_range.
    + intros [= <-]. apply to_uint32_range.
Qed.

(** X14: a method returning [bool] returns the boolean stored under its field,
    false when the field is absent, and throws [type_error] 302 when the field
    holds anything that is not a boolean (the number 1, say); the field is
    [connected] for [checkConnect] and [success] for the others, so that
    [checkConnect] answers false to a response that has [success] only. *)
Theorem facade_flag_field (op : facade_op) (key : string) c request
    (o : gmap string json) c' :
  facade_flag_key op = Some key ->
  facade_permitted op c = true ->
  facade_request op = Ok request ->
  sendRequest request c = (Ok (JObject o), c') ->
  (forall b, o !! key = Some (JBool b) ->
     run_facade_op op c = (Ok (VBool b), c'))
  /\ (o !! key = None -> run_facade_op op c = (Ok (VBool false), c'))
  /\ (forall v, o !! key = Some v -> (forall b, v <> JBool b) ->
        run_facade_op op c = (Throw (json_type_error 302), c'))
  /\ (key = "connected" <-> op = FCheckConnect).
Proof.
  intros Hk Hp Hq Hr.
  rewrite (facade_run op c request _ c' Hp Hq Hr).
  assert (Hdec : facade_decode op (JObject o)
                 = result_bind (Json.value Json.get_bool key false (JObject o))
                               (fun b => Ok (VBool b))).
  { destruct op; try discriminate; injection Hk as <-; reflexivity. }
  rewrite Hdec. cbn [Json.value]. split; [|split; [|split]].
  - intros b ->. reflexivity.
  - intros ->. reflexivity.
  - intros v -> Hv. destruct v; try reflexivity. destruct (Hv b). reflexivity.
  - destruct op; try discriminate; injection Hk as <-;
      split; intros H; try discriminate; reflexivity.
Qed.

(** X15: [getCurrentMode] returns the string stored under [mode], whatever the
    other fields say, ["auto"] when the field is absent, and throws
    [type_error] 302 when the field is not a string. *)
Theorem getCurrentMode_field c (o : gmap string json) c' :
  sendRequest (JObject {[ "command" := JString "getCurrentMode" ]}) c
    = (Ok (JObject o), c') ->
  (forall mode, o !! "mode" = Some (JString mode) ->
     getCurrentMode c = (Ok mode, c'))
  /\ (o !! "mode" = None -> getCurrentMode c = (Ok "auto", c'))
  /\ (forall v, o !! "mode" = Some v -> (forall mode, v <> JString mode) ->
        getCurrentMode c = (Throw (json_type_error 302), c')).
Proof.
  intros Hr.
  assert (Hrun : getCurrentMode c
                 = (Json.value Json.get_string "mode" "auto" (JObject o), c')).
  { unfold getCurrentMode. step_M. cbn [Json.assign]. rewrite Hr. 
    destruct (Json.value Json.get_string "mode" "auto" (JObject o)); reflexivity. }
  rewrite Hrun. cbn [Json.value]. split; [|split].
  - intros mode ->. reflexivity.
  - intros ->. reflexivity.
  - intros v -> Hv. destruct v; try reflexivity. destruct (Hv s). reflexivity.
Qed.

(** ** The requests on the wire *)

(** X16: the envelope of every public method is an object whose [command] is
    the method's wire name, which has a [params] field exactly when the method
    takes arguments, and no other field; on a connected client, the first call
    the method makes on the socket is the send of that envelope, serialized. *)
Theorem facade_request_on_the_wire (op : facade_op) :
  (exists o : gmap string json,
     facade_request op = Ok (JObject o)
     /\ o !! "command" = Some (JString (facade_command op))
     /\ (is_Some (o !! "params") <-> facade_has_params op = true)
     /\ (forall key, key <> "command" -> key <> "params" -> o !! key = None))
  /\ (forall c request request_str,
        facade_permitted op c = true ->
        isConnected c = true ->
        facade_request op = Ok request ->
        json_dump request = Some request_str ->
        exists rest,
          (trace_ (snd (run_facade_op op c))
           = trace_ c ++ io_send request_str :: rest)%list).
Proof.
  split.
  - destruct op as [| | | | | |op| |q| |]; try destruct op;
      eexists; (split; [reflexivity|]); (split; [reflexivity|]); split;
      try (split; [intros [v Hv]; discriminate | discriminate]);
      try (split; [reflexivity | intros _; eexists; reflexivity]);
      intros key Hc Hp;
      repeat (rewrite lookup_insert_ne by congruence);
      try (rewrite lookup_singleton_ne by congruence);
      try apply lookup_empty; reflexivity.
  - intros c request request_str Hp Hc Hq Hd.
    destruct (sendRequest_returns c request) as (response & c' & Hr).
    destruct (sendRequest_sends c request request_str Hc Hd) as (rest & Ht).
    exists rest. rewrite (facade_run op c request response c' Hp Hq Hr).
    rewrite Hr in Ht. exact Ht.
Qed.

(** X17: the arguments travel under their names in one [params] object:
    [mode] for [setMode]; [local_ip], [local_port] and [dog_ip] for
    [initRobot]; [vx], [vy] and [yaw_rate] for [move]; [roll_vel], [pitch_vel],
    [yaw_vel] and [height_vel] for [attitudeControl]; [vx] and [yaw_rate] for
    [twoLegStand]; each [float] is stored widened to a JSON number. *)
Theorem request_params (mode local_ip dog_ip : string) (local_port : Z)
    (a b c d : spec_float) :
  setMode_request mode
  = Ok (JObject {[ "command" := JString "setMode";
                   "params" := JObject {[ "mode" := JString mode ]} ]})
  /\ initRobot_request local_ip local_port dog_ip
     = Ok (JObject {[ "command" := JString "initRobot";
                      "params" :=
                        JObject {[ "local_ip" := JString local_ip;
                                   "local_port" := JInt local_port;
                                   "dog_ip" := JString dog_ip ]} ]})
  /\ move_request a b c
     = Ok (JObject {[ "command" := JString "move";
                      "params" :=
                        JObject {[ "vx" := JFloat (Float64.of_float a);
                                   "vy" := JFloat (Float64.of_float b);
                                   "yaw_rate" := JFloat (Float64.of_float c) ]} ]})
  /\ attitudeControl_request a b c d
     = Ok (JObject {[ "command" := JString "attitudeControl";
                      "params" :=
                        JObject {[ "roll_vel" := JFloat (Float64.of_float a);
                                   "pitch_vel" := JFloat (Float64.of_float b);
                                   "yaw_vel" := JFloat (Float64.of_float c);
                                   "height_vel" := JFloat (Float64.of_float d) ]} ]})
  /\ twoLegStand_request a b
     = Ok (JObject {[ "command" := JString "twoLegStand";
                      "params" :=
                        JObject {[ "vx" := JFloat (Float64.of_float a);
                                   "yaw_rate" := JFloat (Float64.of_float b) ]} ]}).
Proof. repeat split; reflexivity. Qed.

(** ** What the public methods can throw *)









(** ** Identities *)

(** X19: the identity string determines both the role and the timestamp: two
    identities are equal exactly when they come from the same role at the same
    timestamp. *)
Theorem identity_determines_role_and_time (client_type1 client_type2 : ClientType)
    (t1 t2 : Z) :
  identity client_type1 t1 = identity client_type2 t2
  <-> client_type1 = client_type2 /\ t1 = t2.
Proof.
  split.
  - apply identity_inj.
  - intros [-> ->]. reflexivity.
Qed.

(** ** The life of a client *)

(** X20: the constructor leaves the client Disconnected, with the role and the
    endpoint it was given and one call made on the socket, the setting of the
    identity; until [connect] is called every public method returns its
    fallback without a further call on the socket. *)
Theorem constructed_client_is_idle (client_type : ClientType)
    (tcp_endpoint : string) (now : Z) s0 c (op : facade_op) :
  construct client_type tcp_endpoint now s0 = Ok c ->
  isConnected c = false
  /\ getClientType c = client_type
  /\ tcp_endpoint_ c = tcp_endpoint
  /\ fst (run_facade_op op c) = Ok (facade_default op)
  /\ trace_ (snd (run_facade_op op c))
     = [io_setsockopt_identity (identity client_type now)].
Proof.
  unfold construct.
  destruct (zmq_setsockopt_identity (identity client_type now) s0)
    as [[u|n] s1]; [|discriminate].
  intros [= <-].
  split; [reflexivity|]. split; [reflexivity|]. split; [reflexivity|].
  match goal with |- context [run_facade_op op ?c0] =>
    destruct (facade_disconnected_default_aux op c0 eq_refl) as (Hv & Ht & _)
  end.
  split; [exact Hv | exact Ht].
Qed.

(** X21: [disconnect] does not act on the socket, so a [connect] after a
    [disconnect] calls [socket_.connect] again on the same socket and
    registers again, from any state. *)
Theorem reconnect_goes_through_the_socket c :
  socket_ (snd (disconnect c)) = socket_ c
  /\ exists events,
       (trace_ (snd (connect (snd (disconnect c))))
        = trace_ c ++ io_connect (tcp_endpoint_ c) :: events)%list
       /\ (events = []
           \/ exists request_str,
                events = [io_send request_str]
                \/ events = [io_send request_str; io_recv]).
Proof.
  split; [rewrite disconnect_run; reflexivity|].
  destruct (connect_single_attempt (snd (disconnect c)))
    as (events & Ht & Hevents).
  { rewrite disconnect_run. reflexivity. }
  exists events. rewrite disconnect_run in Ht |- *.
  cbn [snd trace_ tcp_endpoint_] in Ht |- *. auto.
Qed.

End Coverage.

(** * Concrete runs on the scripted environment *)

(** [std::to_string] on two timestamps. *)
Example identity_examples :
  identity REMOTE_CONTROLLER 12345 = "rc_12345"
  /\ identity NAVIGATION (-7) = "nav_-7".
Proof. split; reflexivity. Qed.

(** C1, the claim as stated fails for [getQuaternion]: on a Disconnected
    client it returns [0, 0, 0, 1], which is not the all-zero vector of
    length 4. *)
Lemma getQuaternion_disconnected_not_all_zero :
  fst (getQuaternion (Scripted.fresh NAVIGATION (Scripted.mkScript [] [] [])))
    = Ok [Float32.zero; Float32.zero; Float32.zero; Float32.one]
  /\ [Float32.zero; Float32.zero; Float32.zero; Float32.one]
     <> repeat Float32.zero (documented_length QGetQuaternion).
Proof. split; [reflexivity | discriminate]. Qed.

(** [getRPY] on a client that was never connected. *)
Lemma vector_query_disconnected_witness :
  exists v,
    run_vector_query QGetRPY
      (Scripted.fresh NAVIGATION (Scripted.mkScript [] [] []))
    = (Ok v, Scripted.fresh NAVIGATION (Scripted.mkScript [] [] []))
    /\ length v = 3%nat
    /\ v = [Float32.zero; Float32.zero; Float32.zero].
Proof.
  exact (vector_query_disconnected QGetRPY
           (Scripted.fresh NAVIGATION (Scripted.mkScript [] [] [])) eq_refl).
Defined.



(** A request on a client that was never connected: the scripted reply is
    left unread. *)
Lemma sendRequest_disconnected_witness :
  sendRequest (JObject {[ "command" := JString "standUp" ]})
    (Scripted.fresh REMOTE_CONTROLLER
       (Scripted.mkScript [] [] [ZOk (Some Scripted.frame_success)]))
  = (Ok (failure_envelope "Not connected to service"),
     Scripted.fresh REMOTE_CONTROLLER
       (Scripted.mkScript [] [] [ZOk (Some Scripted.frame_success)])).
Proof.
  apply (proj1 (sendRequest_disconnected
                  (Scripted.fresh REMOTE_CONTROLLER
                     (Scripted.mkScript [] [] [ZOk (Some Scripted.frame_success)]))
                  (JObject {[ "command" := JString "standUp" ]}) eq_refl)).
Defined.

(** [setMode] on a connected navigation client: nothing reaches the socket. *)
Lemma setMode_navigator_rejected_witness :
  fst (setMode "manual"
         (Scripted.connected NAVIGATION
            (Scripted.mkScript [] [] [ZOk (Some Scripted.frame_success)])))
  = Ok false
  /\ trace_ (snd (setMode "manual"
         (Scripted.connected NAVIGATION
            (Scripted.mkScript [] [] [ZOk (Some Scripted.frame_success)]))))
     = [].
Proof.
  pose proof (setMode_navigator_rejected
                (Scripted.connected NAVIGATION
                   (Scripted.mkScript [] [] [ZOk (Some Scripted.frame_success)]))
                "manual" eq_refl) as (Hrun & Htrace & _).
  split.
  - rewrite Hrun. reflexivity.
  - exact Htrace.
Defined.

(** A registration that the server accepts, and a [connect] on a client that
    is connected already. *)
Lemma connection_state_machine_witness :
  (fst (connect (Scripted.fresh REMOTE_CONTROLLER
                   (Scripted.mkScript [] [] [ZOk (Some Scripted.frame_success)])))
   = Ok true
   /\ isConnected
        (snd (connect (Scripted.fresh REMOTE_CONTROLLER
                         (Scripted.mkScript [] [] [ZOk (Some Scripted.frame_success)]))))
      = true)
  /\ connect (Scripted.connected REMOTE_CONTROLLER
                (Scripted.mkScript [] [] [ZOk (Some Scripted.frame_failure)]))
     = (Ok true,
        Scripted.connected REMOTE_CONTROLLER
          (Scripted.mkScript [] [] [ZOk (Some Scripted.frame_failure)])).
Proof.
  split.
  - split; [reflexivity|].
    apply (proj1 (connection_state_machine
                    (Scripted.fresh REMOTE_CONTROLLER
                       (Scripted.mkScript [] []
                          [ZOk (Some Scripted.frame_success)])))).
    reflexivity.
  - apply (proj2 (proj2 (proj2 (connection_state_machine
                    (Scripted.connected REMOTE_CONTROLLER
                       (Scripted.mkScript [] []
                          [ZOk (Some Scripted.frame_failure)])))))).
    reflexivity.
Defined.

(** C6, at the registration reply [{success:false, message:42}]: reading the
    message for the log line throws a [type_error], which the handler of
    [connect] does not catch; [connect] throws and the client is left
    Connected.  A reply that is not an object, here [[1,2]], does the same at
    the reading of [success]. *)
Lemma connect_unreadable_reply_throws :
  (fst (connect (Scripted.fresh REMOTE_CONTROLLER
                   (Scripted.mkScript [] []
                      [ZOk (Some Scripted.frame_failure_message_42)])))
   = Throw (json_type_error 302)
   /\ isConnected
        (snd (connect (Scripted.fresh REMOTE_CONTROLLER
                         (Scripted.mkScript [] []
                            [ZOk (Some Scripted.frame_failure_message_42)]))))
      = true)
  /\ (fst (connect (Scripted.fresh REMOTE_CONTROLLER
                      (Scripted.mkScript [] [] [ZOk (Some Scripted.frame_array)])))
      = Throw (json_type_error 306)
      /\ isConnected
           (snd (connect (Scripted.fresh REMOTE_CONTROLLER
                            (Scripted.mkScript [] []
                               [ZOk (Some Scripted.frame_array)]))))
         = true).
Proof. repeat split; reflexivity. Qed.

(** The same registration with a plain [{success:false}] is rejected cleanly. *)
Example connect_rejected_example :
  fst (connect (Scripted.fresh REMOTE_CONTROLLER
                  (Scripted.mkScript [] [] [ZOk (Some Scripted.frame_failure)])))
  = Ok false
  /\ isConnected
       (snd (connect (Scripted.fresh REMOTE_CONTROLLER
                        (Scripted.mkScript [] [] [ZOk (Some Scripted.frame_failure)]))))
     = false.
Proof. split; reflexivity. Qed.

(** [move(1.0, 0.0, 0.5)] on a connected client: the first transport call is
    the send of the serialized envelope. *)
Lemma move_request_envelope_witness :
  exists rest,
    trace_ (snd (move Float32.one Float32.zero Float32.half
                   (Scripted.connected REMOTE_CONTROLLER
                      (Scripted.mkScript [] [] [ZOk (Some Scripted.frame_result_2)]))))
    = io_send "<request>" :: rest.
Proof.
  eapply (proj2 move_request_envelope
            (Scripted.connected REMOTE_CONTROLLER
               (Scripted.mkScript [] [] [ZOk (Some Scripted.frame_result_2)]))).
  - reflexivity.
  - reflexivity.
  - reflexivity.
Defined.

(** [standUp] against a server that answers [{success:true, result:2}],
    against one that answers [{success:false}], and the former compared with
    one that answers [{success:false, result:2}]. *)
Lemma result_code_reads_result_only_witness :
  fst (run_result_code_op OpStandUp
         (Scripted.connected REMOTE_CONTROLLER
            (Scripted.mkScript [] [] [ZOk (Some Scripted.frame_result_2)])))
  = Ok 2
  /\ fst (run_result_code_op OpStandUp
            (Scripted.connected REMOTE_CONTROLLER
               (Scripted.mkScript [] [] [ZOk (Some Scripted.frame_failure)])))
     = Ok 0
  /\ fst (run_result_code_op OpStandUp
            (Scripted.connected REMOTE_CONTROLLER
               (Scripted.mkScript [] [] [ZOk (Some Scripted.frame_result_2)])))
     = fst (run_result_code_op OpStandUp
              (Scripted.connected REMOTE_CONTROLLER
                 (Scripted.mkScript [] []
                    [ZOk (Some Scripted.frame_result_2_failure)]))).
Proof.
  pose proof (result_code_reads_result_only (E := Scripted.env) OpStandUp
                (JObject {[ "command" := JString "standUp" ]}) eq_refl)
    as (Htwo & Hfail & _ & Hsame).
  split; [|split].
  - erewrite Htwo; reflexivity.
  - erewrite Hfail; reflexivity.
  - eapply Hsame; reflexivity.
Defined.

(** The constructor at timestamp 1 returns a client on whose socket the
    identity ["rc_1"] was set; the identities of two clients constructed at
    timestamps 1 and 2 differ. *)
Lemma identity_of_client_witness :
  construct (E := Unusual.env) REMOTE_CONTROLLER DEFAULT_TCP_ENDPOINT 1
            (Scripted.mkScript [] [] [])
  = Ok (Unusual.constructed REMOTE_CONTROLLER 1)
  /\ trace_ (Unusual.constructed REMOTE_CONTROLLER 1)
     = [io_setsockopt_identity "rc_1"]
  /\ 1 <> 2
  /\ identity REMOTE_CONTROLLER 1 <> identity NAVIGATION 2
  /\ exists c,
       construct (E := Unusual.env) NAVIGATION DEFAULT_TCP_ENDPOINT 2
                 (Scripted.mkScript [] [] []) = Ok c
       /\ socket_ c = Scripted.mkScript [] [] [].
Proof.
  destruct (identity_of_client (E := Unusual.env)) as (Hset & Hdistinct & Hok).
  split; [reflexivity|]. split; [|split; [discriminate|split]].
  - exact (Hset REMOTE_CONTROLLER DEFAULT_TCP_ENDPOINT 1
             (Scripted.mkScript [] [] [])
             (Unusual.constructed REMOTE_CONTROLLER 1) eq_refl).
  - apply Hdistinct. discriminate.
  - exact (Hok NAVIGATION DEFAULT_TCP_ENDPOINT 2 (Scripted.mkScript [] [] [])
             tt (Scripted.mkScript [] [] []) eq_refl).
Defined.

(** [getRPY] against a server that answers
    [{success:false, values:[0.5,16777217]}]: two numbers come back, although
    the reply reports failure and three entries are documented; they are
    [0.5] and, rounded to the nearest [float], [16777216].  Against a server
    that answers [{success:true}] the default comes back, and against one
    that answers [{values:[1,"a"]}] the query throws. *)
Lemma vector_query_returns_values_witness :
  (fst (run_vector_query QGetRPY
          (Unusual.awaiting Unusual.frame_values_rounded))
   = Ok [S754_finite false 8388608 (-24); S754_finite false 8388608 1]
   /\ length [S754_finite false 8388608 (-24); S754_finite false 8388608 1]
      <> documented_length QGetRPY)
  /\ fst (run_vector_query QGetRPY (Unusual.awaiting Scripted.frame_success))
     = Ok [Float32.zero; Float32.zero; Float32.zero]
  /\ fst (run_vector_query QGetRPY
            (Unusual.awaiting Unusual.frame_values_mixed))
     = Throw (json_type_error 302).
Proof.
  pose proof (vector_query_returns_values (E := Unusual.env) QGetRPY
                (JObject {[ "command" := JString "getRPY" ]}) eq_refl)
    as (Hvalues & Hdefault & Hthrow & _).
  split; [split; [|discriminate]|split].
  - destruct (Hvalues
                (Unusual.awaiting Unusual.frame_values_rounded) Unusual.served
                {[ "success" := JBool false;
                   "values" := JArray [JFloat Float64.half; JUInt 16777217] ]}
                [JFloat Float64.half; JUInt 16777217]
                [S754_finite false 8388608 (-24); S754_finite false 8388608 1]
                eq_refl eq_refl eq_refl) as (Hrun & _).
    rewrite Hrun. reflexivity.
  - rewrite (Hdefault (Unusual.awaiting Scripted.frame_success) Unusual.served
               (JObject {[ "success" := JBool true ]}) eq_refl eq_refl).
    reflexivity.
  - rewrite (Hthrow (Unusual.awaiting Unusual.frame_values_mixed) Unusual.served
               {[ "values" := JArray [JUInt 1; JString "a"] ]}
               (JArray [JUInt 1; JString "a"]) (json_type_error 302)
               eq_refl eq_refl eq_refl).
    reflexivity.
Defined.

(** C10, the claim as stated fails when [values] is present and is no array:
    the server answers [{success:true, values:null}], the response contains
    a [values] field, and [getRPY] returns no vector but throws. *)
Lemma vector_query_values_null_throws :
  fst (sendRequest (JObject {[ "command" := JString "getRPY" ]})
         (Unusual.awaiting Unusual.frame_values_null))
  = Ok (JObject {[ "success" := JBool true; "values" := JNull ]})
  /\ Json.contains "values"
       (JObject {[ "success" := JBool true; "values" := JNull ]}) = true
  /\ fst (getRPY (Unusual.awaiting Unusual.frame_values_null))
     = Throw (json_type_error 302).
Proof. repeat split; reflexivity. Qed.

(** * Concrete runs for the further properties *)

(** A reply that is a JSON array comes back from [sendRequest] as that array;
    the send reported false. *)
Lemma sendRequest_round_trip_witness :
  fst (sendRequest (JObject {[ "command" := JString "heartbeat" ]})
         (Scripted.connected NAVIGATION
            (Scripted.mkScript [] [ZOk false]
               [ZOk (Some Scripted.frame_array)])))
  = Ok (JArray [JUInt 1; JUInt 2]).
Proof.
  rewrite (sendRequest_round_trip
             (Scripted.connected NAVIGATION
                (Scripted.mkScript [] [ZOk false]
                   [ZOk (Some Scripted.frame_array)]))
             (JObject {[ "command" := JString "heartbeat" ]})
             "<request>" false
             (Scripted.mkScript [] [] [ZOk (Some Scripted.frame_array)])
             Scripted.frame_array (Scripted.mkScript [] [] [])
             (JArray [JUInt 1; JUInt 2])
             eq_refl eq_refl eq_refl eq_refl eq_refl).
  reflexivity.
Defined.

(** A request on a client that was never connected reaches no socket call;
    the same request on a connected client is sent. *)
Lemma sendRequest_one_round_trip_witness :
  trace_ (snd (sendRequest (JObject {[ "command" := JString "heartbeat" ]})
                 (Replies.idle NAVIGATION)))
  = []
  /\ exists rest,
       trace_ (snd (sendRequest (JObject {[ "command" := JString "heartbeat" ]})
                      (Replies.awaiting NAVIGATION Scripted.frame_success)))
       = io_send "<request>" :: rest.
Proof.
  split.
  - destruct (sendRequest_one_round_trip (Replies.idle NAVIGATION)
                (JObject {[ "command" := JString "heartbeat" ]}))
      as (events & Ht & _ & Hidle & _).
    rewrite Ht, (Hidle eq_refl). reflexivity.
  - destruct (sendRequest_one_round_trip
                (Replies.awaiting NAVIGATION Scripted.frame_success)
                (JObject {[ "command" := JString "heartbeat" ]}))
      as (events & Ht & _ & _ & Hsent).
    destruct (Hsent "<request>" eq_refl eq_refl) as (rest & ->).
    exists rest. exact Ht.
Defined.

(** [socket_.connect] throws error 111. *)
Lemma connect_failure_is_clean_witness :
  fst (connect (Scripted.fresh REMOTE_CONTROLLER
                  (Scripted.mkScript [ZErr 111] [] [])))
  = Ok false
  /\ isConnected
       (snd (connect (Scripted.fresh REMOTE_CONTROLLER
                        (Scripted.mkScript [ZErr 111] [] []))))
     = false.
Proof.
  apply connect_failure_is_clean; [reflexivity|].
  left. do 2 eexists. reflexivity.
Defined.

Lemma connect_makes_one_attempt_witness :
  trace_ (snd (connect (Scripted.fresh REMOTE_CONTROLLER
                          (Scripted.mkScript [] [] [ZOk (Some Scripted.frame_failure)]))))
  = [io_connect DEFAULT_TCP_ENDPOINT; io_send "<request>"; io_recv]
  /\ exists events,
       trace_ (snd (connect (Scripted.fresh REMOTE_CONTROLLER
                               (Scripted.mkScript [] []
                                  [ZOk (Some Scripted.frame_failure)]))))
       = io_connect DEFAULT_TCP_ENDPOINT :: events.
Proof.
  split; [reflexivity|].
  destruct (connect_makes_one_attempt
              (Scripted.fresh REMOTE_CONTROLLER
                 (Scripted.mkScript [] [] [ZOk (Some Scripted.frame_failure)]))
              eq_refl) as (events & Ht & _).
  exists events. exact Ht.
Defined.

Lemma connect_true_iff_registered_witness :
  fst (connect (Scripted.fresh NAVIGATION
                  (Scripted.mkScript [] [] [ZOk (Some Scripted.frame_success)])))
  = Ok true.
Proof.
  apply (proj2 (connect_true_iff_registered
                  (Scripted.fresh NAVIGATION
                     (Scripted.mkScript [] []
                        [ZOk (Some Scripted.frame_success)]))
                  eq_refl)).
  do 4 eexists. split; [reflexivity|]. split; reflexivity.
Defined.

Lemma connect_sends_registration_witness :
  exists rest,
    trace_ (snd (connect (Scripted.fresh NAVIGATION
                            (Scripted.mkScript [] []
                               [ZOk (Some Scripted.frame_success)]))))
    = io_connect DEFAULT_TCP_ENDPOINT :: io_send "<request>" :: rest.
Proof.
  apply (connect_sends_registration
           (Scripted.fresh NAVIGATION
              (Scripted.mkScript [] [] [ZOk (Some Scripted.frame_success)]))
           tt (Scripted.mkScript [] [] [ZOk (Some Scripted.frame_success)])
           "<request>" eq_refl eq_refl eq_refl).
Defined.

(** [getBatteryPower] on a client that was never connected. *)
Lemma facade_disconnected_default_witness :
  fst (run_facade_op FGetBatteryPower (Replies.idle NAVIGATION)) = Ok (VCode 0)
  /\ trace_ (snd (run_facade_op FGetBatteryPower (Replies.idle NAVIGATION))) = []
  /\ socket_ (snd (run_facade_op FGetBatteryPower (Replies.idle NAVIGATION)))
     = Scripted.mkScript [] [] [].
Proof.
  exact (facade_disconnected_default FGetBatteryPower (Replies.idle NAVIGATION)
           eq_refl).
Defined.

(** [getCurrentMode] when the reply is not JSON. *)
Lemma facade_exchange_failure_default_witness :
  fst (run_facade_op FGetCurrentMode
         (Replies.awaiting NAVIGATION Scripted.frame_garbage))
  = Ok (VMode "auto").
Proof.
  apply (facade_exchange_failure_default FGetCurrentMode
           (Replies.awaiting NAVIGATION Scripted.frame_garbage)
           (JObject {[ "command" := JString "getCurrentMode" ]})
           eq_refl eq_refl).
  eapply parse_fails; reflexivity.
Defined.

(** [sendHeartbeat] when the reply is the array [[1,2]]. *)
Lemma facade_reply_not_an_object_witness :
  fst (run_facade_op FSendHeartbeat
         (Replies.awaiting NAVIGATION Scripted.frame_array))
  = Throw (json_type_error 306).
Proof.
  erewrite (facade_reply_not_an_object FSendHeartbeat
              (Replies.awaiting NAVIGATION Scripted.frame_array)
              (JObject {[ "command" := JString "heartbeat" ]})
              (JArray [JUInt 1; JUInt 2]));
    reflexivity.
Defined.

(** [getBatteryPower] when the reply is [{value:-1}]. *)
Lemma facade_numeric_field_witness :
  fst (run_facade_op FGetBatteryPower
         (Replies.awaiting NAVIGATION Replies.frame_value_minus_1))
  = Ok (VCode 4294967295).
Proof.
  destruct (facade_numeric_field FGetBatteryPower "value"
              (Replies.awaiting NAVIGATION Replies.frame_value_minus_1)
              (JObject {[ "command" := JString "getBatteryPower" ]})
              {[ "value" := JInt (-1) ]}
              (Replies.served NAVIGATION)
              eq_refl eq_refl eq_refl) as (Hint & _).
  rewrite (Hint (-1) (or_introl eq_refl)). reflexivity.
Defined.

(** [checkConnect] when the reply is [{success:true}], and [sendHeartbeat]
    when it is [{success:1}]. *)
Lemma facade_flag_field_witness :
  fst (run_facade_op FCheckConnect
         (Replies.awaiting NAVIGATION Scripted.frame_success))
  = Ok (VBool false)
  /\ fst (run_facade_op FSendHeartbeat
            (Replies.awaiting NAVIGATION Replies.frame_success_1))
     = Throw (json_type_error 302).
Proof.
  split.
  - destruct (facade_flag_field FCheckConnect "connected"
                (Replies.awaiting NAVIGATION Scripted.frame_success)
                (JObject {[ "command" := JString "checkConnect" ]})
                {[ "success" := JBool true ]}
                (Replies.served NAVIGATION)
                eq_refl eq_refl eq_refl eq_refl) as (_ & Habsent & _).
    rewrite (Habsent eq_refl). reflexivity.
  - destruct (facade_flag_field FSendHeartbeat "success"
                (Replies.awaiting NAVIGATION Replies.frame_success_1)
                (JObject {[ "command" := JString "heartbeat" ]})
                {[ "success" := JUInt 1 ]}
                (Replies.served NAVIGATION)
                eq_refl eq_refl eq_refl eq_refl) as (_ & _ & Hother & _).
    rewrite (Hother (JUInt 1) eq_refl); [reflexivity|]. discriminate.
Defined.

(** [getCurrentMode] when the reply is [{mode:"manual", success:false}]. *)
Lemma getCurrentMode_field_witness :
  fst (getCurrentMode (Replies.awaiting NAVIGATION Replies.frame_mode_manual))
  = Ok "manual".
Proof.
  destruct (getCurrentMode_field
              (Replies.awaiting NAVIGATION Replies.frame_mode_manual)
              {[ "mode" := JString "manual"; "success" := JBool false ]}
              (Replies.served NAVIGATION)
              eq_refl) as (Hmode & _).
  rewrite (Hmode "manual" eq_refl). reflexivity.
Defined.

(** [setMode("manual")] on a connected remote controller. *)
Lemma facade_request_on_the_wire_witness :
  exists rest,
    trace_ (snd (run_facade_op (FSetMode "manual")
                   (Replies.awaiting REMOTE_CONTROLLER Scripted.frame_success)))
    = io_send "<request>" :: rest.
Proof.
  apply (proj2 (facade_request_on_the_wire (FSetMode "manual"))
           (Replies.awaiting REMOTE_CONTROLLER Scripted.frame_success)
           (JObject {[ "command" := JString "setMode";
                       "params" := JObject {[ "mode" := JString "manual" ]} ]})
           "<request>" eq_refl eq_refl eq_refl eq_refl).
Defined.


(** A navigation client constructed at timestamp 7, then asked for its mode. *)
Lemma constructed_client_is_idle_witness :
  isConnected
    (mkClient (E := Replies.env) (Scripted.mkScript [] [] [])
              DEFAULT_TCP_ENDPOINT false NAVIGATION
              [io_setsockopt_identity "nav_7"] [])
  = false
  /\ fst (run_facade_op FGetCurrentMode
            (mkClient (E := Replies.env) (Scripted.mkScript [] [] [])
                      DEFAULT_TCP_ENDPOINT false NAVIGATION
                      [io_setsockopt_identity "nav_7"] []))
     = Ok (VMode "auto").
Proof.
  destruct (constructed_client_is_idle (E := Replies.env) NAVIGATION
              DEFAULT_TCP_ENDPOINT 7 (Scripted.mkScript [] [] []) _
              FGetCurrentMode eq_refl) as (Hc & _ & _ & Hv & _).
  split; [exact Hc | exact Hv].
Defined.
